(** * Endee RAG pipeline: a shallow embedding of the Python sources

    The development follows the layout of the repository:
    - [Py]                Python values, exceptions, truthiness, slicing, calls by keyword
    - [Config]            src/config.py
    - [Runtime]           the outside world (HTTP session, clock, models) and the effect monad
    - [EmbeddingService]  src/embedding_service.py (the chunker, the embedder)
    - [EndeeClient]       src/endee_client.py
    - [RAGService]        src/rag_service.py (the orchestrator)
    - [Main]              src/main.py (the HTTP routes)

    Python integers are unbounded, so they are modelled by [Z].  A Python [str]
    is modelled by [string]; [len] counts its characters. *)

From Stdlib Require Import ZArith List String Ascii Bool Lia QArith Arith.
From Stdlib Require Import DecimalString Lqa.
Import ListNotations.

Set Warnings "-register-all".
Local Open Scope string_scope.
Local Open Scope Z_scope.

(* ================================================================== *)
(** ** Python values, exceptions and outcomes *)

Module Py.

(** The exceptions that can travel through the modelled code.  The classes
    derived from [Exception] are caught by [except Exception]; the last two
    derive from [BaseException] only and are caught by a bare [except:]. *)
Inductive exn : Type :=
| TypeError (msg : string)
| AttributeError (msg : string)
| KeyError (key : string)
| IndexError (msg : string)
| RuntimeError (msg : string)
| HTTPError (status_code : Z)          (* requests.exceptions.HTTPError *)
| RequestException (msg : string)      (* connection errors, timeouts, bad JSON *)
| HTTPException (status_code : Z) (detail : string)   (* fastapi *)
| OtherException (msg : string)        (* any other subclass of Exception *)
| KeyboardInterrupt
| SystemExit.

Definition is_Exception (e : exn) : bool :=
  match e with
  | KeyboardInterrupt | SystemExit => false
  | _ => true
  end.

(** Result of running a piece of code: a value, a raised exception, or
    [OutOfFuel] when the loop budget given to the model was not enough. *)
Inductive outcome (A : Type) : Type :=
| Ok (a : A)
| Raise (e : exn)
| OutOfFuel.
Arguments Ok {A} a.
Arguments Raise {A} e.
Arguments OutOfFuel {A}.

Definition outcome_map {A B} (f : A -> B) (o : outcome A) : outcome B :=
  match o with
  | Ok a => Ok (f a)
  | Raise e => Raise e
  | OutOfFuel => OutOfFuel
  end.

(** What a collaborator outside the sources gives back to a call: a value
    or an exception. *)
Inductive answer (A : Type) : Type :=
| Answer (a : A)
| Failure (e : exn).
Arguments Answer {A} a.
Arguments Failure {A} e.

Definition of_answer {A} (r : answer A) : outcome A :=
  match r with
  | Answer a => Ok a
  | Failure e => Raise e
  end.

(** Dynamically typed values ([Any], JSON bodies, dict values). *)
Inductive pyval : Type :=
| PNone
| PBool (b : bool)
| PInt (z : Z)
| PFloat (q : Q)
| PStr (s : string)
| PList (l : list pyval)
| PDict (kv : list (string * pyval)).

Definition dict := list (string * pyval).

(** [bool(v)] *)
Definition truthy (v : pyval) : bool :=
  match v with
  | PNone => false
  | PBool b => b
  | PInt z => negb (z =? 0)
  | PFloat q => negb (Qeq_bool q 0)
  | PStr s => negb (String.eqb s "")
  | PList l => match l with [] => false | _ => true end
  | PDict kv => match kv with [] => false | _ => true end
  end.

(** [len(s)] for a string. *)
Definition len (s : string) : Z := Z.of_nat (String.length s).

(** Index adjustment of a slice bound for a sequence of length [n]:
    negative bounds count from the end, and every bound is clamped to [0, n]. *)
Definition slice_bound (n i : Z) : Z :=
  if i <? 0 then Z.max 0 (i + n) else Z.min i n.

(** [s[i:j]] *)
Definition str_slice (s : string) (i j : Z) : string :=
  let lo := slice_bound (len s) i in
  let hi := slice_bound (len s) j in
  substring (Z.to_nat lo) (Z.to_nat (hi - lo)) s.

(** [d.get(key, default)] on a dict: the first binding wins in this
    representation (keys are kept unique by construction). *)
Fixpoint dict_get (d : dict) (key : string) (default : pyval) : pyval :=
  match d with
  | [] => default
  | (k, v) :: rest => if String.eqb k key then v else dict_get rest key default
  end.

(** *** Operations on values of unknown type *)

(** [len(v)] *)
Definition py_len (v : pyval) : outcome Z :=
  match v with
  | PStr s => Ok (len s)
  | PList l => Ok (Z.of_nat (List.length l))
  | PDict kv => Ok (Z.of_nat (List.length kv))
  | _ => Raise (TypeError "object has no len()")
  end.

(** [v.get(key, default)]: only a dict has the method. *)
Definition py_get (v : pyval) (key : string) (default : pyval) : outcome pyval :=
  match v with
  | PDict kv => Ok (dict_get kv key default)
  | _ => Raise (AttributeError "object has no attribute 'get'")
  end.

(** [v[:n]] for n >= 0: strings and lists can be sliced; a number, [None]
    or a dict cannot (the class of the exception raised for a dict depends
    on the version of the interpreter; it is an [Exception] in all). *)
Definition py_slice_prefix (n : nat) (v : pyval) : outcome pyval :=
  match v with
  | PStr s => Ok (PStr (str_slice s 0 (Z.of_nat n)))
  | PList l => Ok (PList (firstn n l))
  | _ => Raise (TypeError "object is not subscriptable")
  end.

(** The items a [for] loop sees. *)
Definition py_iter (v : pyval) : outcome (list pyval) :=
  match v with
  | PList l => Ok l
  | PStr s => Ok (map (fun c => PStr (String c EmptyString)) (list_ascii_of_string s))
  | PDict kv => Ok (map (fun kv0 => PStr (fst kv0)) kv)
  | _ => Raise (TypeError "object is not iterable")
  end.

(** [str(i)] for an integer. *)
Definition str_of_Z (z : Z) : string :=
  NilZero.string_of_int (Z.to_int z).

Definition newline : string := String (ascii_of_nat 10) EmptyString.

(** *** Calling a function with keyword arguments

    A signature lists the parameters after [self] with their default, if
    any.  A call passes keyword arguments only (as every call in the
    sources to the functions modelled this way does). *)
Definition signature := list (string * option pyval).

Fixpoint has_param (sig : signature) (name : string) : bool :=
  match sig with
  | [] => false
  | (p, _) :: rest => String.eqb p name || has_param rest name
  end.

Fixpoint unexpected_keyword (sig : signature) (kwargs : dict) : option string :=
  match kwargs with
  | [] => None
  | (k, _) :: rest =>
      if has_param sig k then unexpected_keyword sig rest else Some k
  end.

Fixpoint lookup_kw (kwargs : dict) (name : string) : option pyval :=
  match kwargs with
  | [] => None
  | (k, v) :: rest => if String.eqb k name then Some v else lookup_kw rest name
  end.

Fixpoint fill_params (fname : string) (sig : signature) (kwargs : dict)
  : outcome (list pyval) :=
  match sig with
  | [] => Ok []
  | (p, default) :: rest =>
      match lookup_kw kwargs p, default with
      | Some v, _ | None, Some v =>
          outcome_map (cons v) (fill_params fname rest kwargs)
      | None, None =>
          Raise (TypeError (fname ++ "() missing 1 required positional argument: '"
                                  ++ p ++ "'"))
      end
  end.

(** Argument binding: an unknown keyword is a [TypeError], raised before the
    body of the callee runs; otherwise each parameter takes the value passed
    for it or its default. *)
Definition bind_arguments (fname : string) (sig : signature) (kwargs : dict)
  : outcome (list pyval) :=
  match unexpected_keyword sig kwargs with
  | Some k =>
      Raise (TypeError (fname ++ "() got an unexpected keyword argument '" ++ k ++ "'"))
  | None => fill_params fname sig kwargs
  end.

End Py.
Import Py.

(* ================================================================== *)
(** ** src/config.py *)

Module Config.

Record Settings : Type := {
  endee_base_url : string;
  endee_auth_token : option string;
  endee_timeout : Z;
  embedding_model : string;
  chunk_size : Z;
  chunk_overlap : Z;
  top_k_results : Z;
  openai_api_key : option string;
  openai_model : string;
  openai_temperature : Q;
  openai_max_tokens : Z
}.

(** The defaults of the class [Settings]; the environment may override each. *)
Definition default_settings : Settings := {|
  endee_base_url := "http://localhost:8080";
  endee_auth_token := None;
  endee_timeout := 30;
  embedding_model := "all-MiniLM-L6-v2";
  chunk_size := 512;
  chunk_overlap := 50;
  top_k_results := 5;
  openai_api_key := None;
  openai_model := "gpt-3.5-turbo";
  openai_temperature := 7 # 10;
  openai_max_tokens := 500
|}.

End Config.

(* ================================================================== *)
(** ** The outside world and the effect monad

    The collaborators the sources only call (the HTTP session of [requests],
    the wall clock, the sentence-transformer model, the chat-completion
    endpoint, [uuid4], [time.sleep]) are answers of a [World].  Code that
    uses them is a state transformer over a [state] that counts the calls
    made so far and logs them in order. *)

Module Runtime.

Definition embedding := list Q.

Record http_request : Type := {
  req_method : string;
  req_url : string;
  req_json : option pyval;
  req_headers : list (string * string);
  req_timeout : Z
}.

(** [text] is the body as text; [body] is what [response.json()] gives,
    [None] when the text is not valid JSON.  The store answers with JSON
    objects: a body that is valid JSON of another kind (an array, a number)
    is not covered by this record. *)
Record http_response : Type := {
  status_code : Z;
  text : string;
  body : option dict
}.

Record chat_message : Type := { role : string; message_content : string }.

Record chat_request : Type := {
  model : string;
  messages : list chat_message;
  max_tokens : Z;
  temperature : Q
}.

(** A completion is seen through [choices[k].message.content]. *)
Definition chat_response := list (option string).

Record World : Type := {
  session_request : nat -> http_request -> answer http_response;
  time_time : nat -> Q;
  (** rounding applied to the result of a floating-point operation *)
  float_round : Q -> Q;
  model_dimension : Z;
  model_encode : string -> answer embedding;
  model_encode_batch : list string -> answer (list embedding);
  chat_completions_create : nat -> chat_request -> answer chat_response;
  uuid4 : nat -> string;
  (** [format(v)] of a value that is not a [str], and [str(e)] of an exception *)
  format_value : pyval -> string;
  str_of_exn : exn -> string
}.

Inductive event : Type :=
| Http (req : http_request)
| Sleep (seconds : Z)
| ClockRead
| Encode (texts : list string)
| Chat (req : chat_request)
| Uuid (drawn : nat).

Record state : Type := {
  http_count : nat;
  clock_count : nat;
  chat_count : nat;
  uuid_count : nat;
  log : list event
}.

Definition initial_state : state :=
  {| http_count := 0; clock_count := 0; chat_count := 0; uuid_count := 0; log := [] |}.

Definition emit (ev : event) (st : state) : state :=
  {| http_count := http_count st; clock_count := clock_count st;
     chat_count := chat_count st; uuid_count := uuid_count st;
     log := (log st ++ [ev])%list |}.

(** The state once one more HTTP request has been sent, the clock has been
    read once more, or one more chat completion has been asked for. *)
Definition sent (req : http_request) (st : state) : state :=
  {| http_count := S (http_count st); clock_count := clock_count st;
     chat_count := chat_count st; uuid_count := uuid_count st;
     log := (log st ++ [Http req])%list |}.

Definition clock_read (st : state) : state :=
  {| http_count := http_count st; clock_count := S (clock_count st);
     chat_count := chat_count st; uuid_count := uuid_count st;
     log := (log st ++ [ClockRead])%list |}.

Definition chatted (req : chat_request) (st : state) : state :=
  {| http_count := http_count st; clock_count := clock_count st;
     chat_count := S (chat_count st); uuid_count := uuid_count st;
     log := (log st ++ [Chat req])%list |}.

Definition M (A : Type) : Type := state -> outcome A * state.

Definition ret {A} (a : A) : M A := fun st => (Ok a, st).

Definition raise {A} (e : exn) : M A := fun st => (Raise e, st).

Definition bind {A B} (m : M A) (k : A -> M B) : M B :=
  fun st =>
    match m st with
    | (Ok a, st') => k a st'
    | (Raise e, st') => (Raise e, st')
    | (OutOfFuel, st') => (OutOfFuel, st')
    end.

Definition lift {A} (o : outcome A) : M A := fun st => (o, st).

(** [try: m  except <classes accepted by catches>: handler] *)
Definition try_except {A} (m : M A) (catches : exn -> bool) (handler : exn -> M A)
  : M A :=
  fun st =>
    match m st with
    | (Raise e, st') => if catches e then handler e st' else (Raise e, st')
    | r => r
    end.

Definition bare_except (e : exn) : bool := true.
Definition except_Exception (e : exn) : bool := is_Exception e.
Definition except_HTTPError (e : exn) : bool :=
  match e with HTTPError _ => true | _ => false end.

Declare Scope monad_scope.
Delimit Scope monad_scope with monad.
Notation "x <- m ;; k" := (bind m (fun x => k))
  (at level 61, m at next level, right associativity) : monad_scope.
Notation "m ;;; k" := (bind m (fun _ => k))
  (at level 61, right associativity) : monad_scope.

Section Primitives.
Variable w : World.

Definition request (req : http_request) : M http_response :=
  fun st => (of_answer (session_request w (http_count st) req), sent req st).

Definition sleep (seconds : Z) : M unit :=
  fun st => (Ok tt, emit (Sleep seconds) st).

Definition time : M Q :=
  fun st => (Ok (time_time w (clock_count st)), clock_read st).

Definition encode (text0 : string) : M embedding :=
  fun st => (of_answer (model_encode w text0), emit (Encode [text0]) st).

Definition encode_batch (texts : list string) : M (list embedding) :=
  fun st => (of_answer (model_encode_batch w texts), emit (Encode texts) st).

Definition chat (req : chat_request) : M chat_response :=
  fun st =>
    (of_answer (chat_completions_create w (chat_count st) req), chatted req st).

(** Runs code that draws identifiers with [uuid4()], one per element of the
    list it returns; the draws continue the numbering of the state. *)
Definition drawing_uuids {A} (f : (nat -> string) -> outcome (list A)) : M (list A) :=
  fun st =>
    match f (fun k => uuid4 w (uuid_count st + k)%nat) with
    | Ok l =>
        (Ok l,
         emit (Uuid (List.length l))
           {| http_count := http_count st; clock_count := clock_count st;
              chat_count := chat_count st;
              uuid_count := (uuid_count st + List.length l)%nat;
              log := log st |})
    | Raise e => (Raise e, st)
    | OutOfFuel => (OutOfFuel, st)
    end.

(** Float subtraction and multiplication: the exact result, rounded. *)
Definition fsub (a b : Q) : Q := float_round w (a - b)%Q.
Definition fmul (a b : Q) : Q := float_round w (a * b)%Q.

End Primitives.

End Runtime.
Import Runtime.
Local Open Scope monad_scope.

(* ================================================================== *)
(** ** src/embedding_service.py: the chunker *)

Module EmbeddingService.

Record chunk_metadata : Type := {
  document_name : string;
  chunk_index : Z;
  original_length : Z;
  start_pos : Z;
  end_pos : Z
}.

Record chunk : Type := {
  id : string;
  content : string;
  metadata : chunk_metadata
}.

(** The [while] loop of [chunk_document].  [i] is the cursor, [chunks] the
    list built so far; one unit of fuel is spent per test of the loop
    condition.  [uuid4 k] is the identifier drawn for the [k]-th chunk of
    the call (each iteration draws exactly one). *)
Fixpoint chunk_loop (fuel : nat) (uuid4 : nat -> string)
    (document_name0 content0 : string) (chunk_size0 step : Z)
    (i : Z) (chunks : list chunk) : outcome (list chunk) :=
  match fuel with
  | O => OutOfFuel
  | S fuel' =>
      if i <? len content0 then
        let end_ := Z.min (i + chunk_size0) (len content0) in
        let chunk_content := str_slice content0 i end_ in
        let chunks' :=
          (chunks ++ [ {| id := uuid4 (List.length chunks);
                         content := chunk_content;
                         metadata := {| document_name := document_name0;
                                        chunk_index := Z.of_nat (List.length chunks);
                                        original_length := len content0;
                                        start_pos := i;
                                        end_pos := end_ |} |} ])%list in
        if end_ >=? len content0 then Ok chunks'
        else chunk_loop fuel' uuid4 document_name0 content0 chunk_size0 step
                        (i + step) chunks'
      else Ok chunks
  end.

Definition chunk_document (fuel : nat) (uuid4 : nat -> string)
    (document_name0 content0 : string) (chunk_size0 overlap : Z)
  : outcome (list chunk) :=
  let step := chunk_size0 - overlap in
  chunk_loop fuel uuid4 document_name0 content0 chunk_size0 step 0 [].

(** [def chunk_document(self, document_name, content, chunk_size=512, overlap=50)] *)
Definition chunk_document_signature : signature :=
  [ ("document_name", None); ("content", None);
    ("chunk_size", Some (PInt 512)); ("overlap", Some (PInt 50)) ].

(** A call of [self.embedding_service.chunk_document] by keyword: the arguments
    are bound first, then the body runs.  The parameters carry the types of
    their annotations. *)
Definition call_chunk_document (fuel : nat) (uuid4 : nat -> string) (kwargs : dict)
  : outcome (list chunk) :=
  match bind_arguments "chunk_document" chunk_document_signature kwargs with
  | Ok [PStr document_name0; PStr content0; PInt chunk_size0; PInt overlap] =>
      chunk_document fuel uuid4 document_name0 content0 chunk_size0 overlap
  | Ok _ => Raise (TypeError "chunk_document(): argument of the wrong type")
  | Raise e => Raise e
  | OutOfFuel => OutOfFuel
  end.

(** The span of a chunk, and the spans the loop produces as a function of
    the length of the content alone. *)
Definition span (c : chunk) : Z * Z :=
  (start_pos (metadata c), end_pos (metadata c)).

Fixpoint span_loop (fuel : nat) (L chunk_size0 step : Z) (i : Z)
  : outcome (list (Z * Z)) :=
  match fuel with
  | O => OutOfFuel
  | S fuel' =>
      if i <? L then
        let end_ := Z.min (i + chunk_size0) L in
        if end_ >=? L then Ok [(i, end_)]
        else outcome_map (cons (i, end_)) (span_loop fuel' L chunk_size0 step (i + step))
      else Ok []
  end.

(** The service object: [__init__] loads the model and asks it for its
    dimension. *)
Record service : Type := {
  model_name : string;
  dimension : Z
}.

Definition init (w : World) (model_name0 : string) : service :=
  {| model_name := model_name0; dimension := model_dimension w |}.

Definition embed_text (w : World) (self : service) (text0 : string) : M embedding :=
  encode w text0.

Definition embed_texts (w : World) (self : service) (texts : list string)
  : M (list embedding) :=
  encode_batch w texts.

Record model_info : Type := {
  info_model : string;
  info_dimension : Z
}.

Definition get_model_info (self : service) : model_info :=
  {| info_model := model_name self; info_dimension := dimension self |}.

End EmbeddingService.

(* ================================================================== *)
(** ** src/endee_client.py *)

Module EndeeClient.

Record client : Type := {
  base_url : string;
  auth_token : option string;
  timeout : Z;
  headers : list (string * string)
}.

(** [s.rstrip("/")] *)
Fixpoint rstrip_slash (s : string) : string :=
  match s with
  | EmptyString => EmptyString
  | String c rest =>
      match rstrip_slash rest with
      | EmptyString => if Ascii.eqb c "/"%char then EmptyString else String c EmptyString
      | r => String c r
      end
  end.

(** The retry policy [__init__] mounts on the session,
    [Retry(total=3, backoff_factor=0.5, status_forcelist=(500, 502, 503, 504))]. *)
Definition retry_total : nat := 3.
Definition status_forcelist : list Z := [500; 502; 503; 504].

(** [EndeeClient.__init__]; the retry policy mounted on the session belongs
    to the session, whose answers are those of the [World]. *)
Definition init (base_url0 : string) (auth_token0 : option string) (timeout0 : Z)
  : client :=
  {| base_url := rstrip_slash base_url0;
     auth_token := auth_token0;
     timeout := timeout0;
     headers :=
       (("Content-Type", "application/json")
          :: match auth_token0 with
             | Some t => if String.eqb t "" then [] else [("Authorization", t)]
             | None => []
             end) |}.

(** The requests the client sends. *)
Definition api_request (self : client) (method : string) (endpoint : string)
    (data : option pyval) : http_request :=
  {| req_method := method; req_url := base_url self ++ endpoint;
     req_json := data; req_headers := headers self;
     req_timeout := timeout self |}.

Definition health_request (self : client) : http_request :=
  {| req_method := "GET"; req_url := base_url self ++ "/api/v1/health";
     req_json := None; req_headers := headers self; req_timeout := 5 |}.

Section WithWorld.
Variable w : World.

(** [response.raise_for_status()] *)
Definition raise_for_status (response : http_response) : M unit :=
  if (400 <=? status_code response) && (status_code response <? 600)
  then raise (HTTPError (status_code response))
  else ret tt.

(** [response.json()] *)
Definition response_json (response : http_response) : M dict :=
  match body response with
  | Some d => ret d
  | None => raise (RequestException "JSONDecodeError")
  end.

(** [_make_request]: its handler for [RequestException] logs the error and
    raises it again, so every exception of the body leaves the function
    unchanged. *)
Definition _make_request (self : client) (method : string) (endpoint : string)
    (data : option pyval) : M dict :=
  try_except
    (response <- request w (api_request self method endpoint data) ;;
     raise_for_status response ;;;
     if negb (String.eqb (text response) "") then response_json response
     else ret [])
    (fun e => match e with HTTPError _ | RequestException _ => true | _ => false end)
    (fun e => raise e).

Definition health_check (self : client) : M bool :=
  try_except
    (response <- request w (health_request self) ;;
     ret (status_code response =? 200))
    bare_except
    (fun _ => ret false).

Definition create_index_data (name : string) (dimension : Z) (metric : string)
  : pyval :=
  PDict [ ("name", PStr name); ("dimension", PInt dimension); ("metric", PStr metric) ].

Definition create_index (self : client) (name : string) (dimension : Z)
    (metric : string) : M unit :=
  try_except
    (_make_request self "POST" "/api/v1/index/create"
       (Some (create_index_data name dimension metric)) ;;;
     ret tt)
    except_HTTPError
    (fun e =>
       match e with
       | HTTPError status => if status =? 409 then ret tt else raise e
       | _ => raise e
       end).

(** A vector handed to [insert]: a dict with the keys id, values and,
    optionally, metadata. *)
Record vector : Type := {
  vector_id : string;
  values : embedding;
  vector_metadata : option dict
}.

Definition insert (self : client) (index_name : string) (vectors : list vector)
  : M unit :=
  let payload :=
    PDict [ ("vectors",
             PList (map (fun v =>
                      PDict ([ ("id", PStr (vector_id v));
                               ("values", PList (map PFloat (values v))) ]
                             ++ match vector_metadata v with
                                | Some md => [ ("metadata", PDict md) ]
                                | None => []
                                end)%list)
                    vectors)) ] in
  _make_request self "POST" ("/api/v1/index/" ++ index_name ++ "/insert")
    (Some payload) ;;;
  ret tt.

Definition search_data (query_vector : embedding) (k : Z) (filter_ : option dict)
  : pyval :=
  PDict ([ ("query", PList (map PFloat query_vector)); ("k", PInt k) ]
         ++ match filter_ with
            | Some f => if truthy (PDict f) then [ ("filter", PDict f) ] else []
            | None => []
            end)%list.

Definition search (self : client) (index_name : string) (query_vector : embedding)
    (k : Z) (filter_ : option dict) : M pyval :=
  response <- _make_request self "POST"
                ("/api/v1/index/" ++ index_name ++ "/search")
                (Some (search_data query_vector k filter_)) ;;
  ret (dict_get response "results" (PList [])).

Definition list_indices (self : client) : M pyval :=
  response <- _make_request self "GET" "/api/v1/index/list" None ;;
  ret (dict_get response "indices" (PList [])).

Definition delete_index (self : client) (name : string) : M unit :=
  _make_request self "DELETE" ("/api/v1/index/" ++ name) None ;;;
  ret tt.

(** [get_vector] returns [None] for a vector the store does not have. *)
Definition get_vector (self : client) (index_name vector_id : string) : M pyval :=
  try_except
    (response <- _make_request self "GET"
                   ("/api/v1/index/" ++ index_name ++ "/vector/" ++ vector_id) None ;;
     ret (dict_get response "vector" PNone))
    except_HTTPError
    (fun e =>
       match e with
       | HTTPError status => if status =? 404 then ret PNone else raise e
       | _ => raise e
       end).

Definition delete_vector (self : client) (index_name vector_id : string) : M unit :=
  _make_request self "DELETE"
    ("/api/v1/index/" ++ index_name ++ "/vector/" ++ vector_id) None ;;;
  ret tt.

Definition get_index_stats (self : client) (index_name : string) : M dict :=
  _make_request self "GET" ("/api/v1/index/" ++ index_name ++ "/stats") None.

End WithWorld.

End EndeeClient.

(* ================================================================== *)
(** ** src/rag_service.py: the orchestrator *)

Module RAGService.

Record OpenAI : Type := { api_key : string }.

Record service : Type := {
  index_name : string;
  embedding_service : EmbeddingService.service;
  endee_client : EndeeClient.client;
  openai_client : option OpenAI
}.

Record ingestion_result : Type := {
  ingested_document_name : string;
  chunks_added : Z;
  total_content_length : Z
}.

Record search_result : Type := {
  query : string;
  results : pyval;
  generated_answer : option string;
  retrieval_time_ms : Q;
  total_time_ms : Q;
  result_count : Z
}.

Definition max_retries : nat := 10.

Section WithWorld.
Variable w : World.
Variable settings : Config.Settings.

(** [RAGService.__init__] *)
Definition init (index_name0 : string) (embedding_model0 : option string) : service :=
  {| index_name := index_name0;
     embedding_service :=
       EmbeddingService.init w
         match embedding_model0 with
         | Some m => if String.eqb m "" then Config.embedding_model settings else m
         | None => Config.embedding_model settings
         end;
     endee_client :=
       EndeeClient.init (Config.endee_base_url settings)
         (Config.endee_auth_token settings) (Config.endee_timeout settings);
     openai_client :=
       match Config.openai_api_key settings with
       | Some k => if String.eqb k "" then None else Some {| api_key := k |}
       | None => None
       end |}.

(** The [for attempt in range(max_retries)] loop of [initialize], with its
    [else] branch; [attempts] is the number of attempts left. *)
Fixpoint wait_for_endee (self : service) (attempts : nat) : M unit :=
  match attempts with
  | O => raise (RuntimeError "Endee server is not responding")
  | S attempts' =>
      healthy <- EndeeClient.health_check w (endee_client self) ;;
      if healthy : bool then ret tt
      else sleep 1 ;;; wait_for_endee self attempts'
  end.

Definition initialize (self : service) : M unit :=
  wait_for_endee self max_retries ;;;
  let model_info := EmbeddingService.get_model_info (embedding_service self) in
  EndeeClient.create_index w (endee_client self) (index_name self)
    (EmbeddingService.info_dimension model_info) "cosine".

(** The metadata of a stored vector: the chunk's metadata, then content and
    source_url. *)
Definition vector_of (source_url : option string)
    (chunk : EmbeddingService.chunk) (embedding0 : embedding) : EndeeClient.vector :=
  let md := EmbeddingService.metadata chunk in
  {| EndeeClient.vector_id := EmbeddingService.id chunk;
     EndeeClient.values := embedding0;
     EndeeClient.vector_metadata :=
       Some [ ("document_name", PStr (EmbeddingService.document_name md));
              ("chunk_index", PInt (EmbeddingService.chunk_index md));
              ("original_length", PInt (EmbeddingService.original_length md));
              ("start_pos", PInt (EmbeddingService.start_pos md));
              ("end_pos", PInt (EmbeddingService.end_pos md));
              ("content", PStr (EmbeddingService.content chunk));
              ("source_url", match source_url with
                             | Some u => PStr u
                             | None => PNone
                             end) ] |}.

(** The body of [ingest_document] after the call of the chunker: embed the
    chunks, pair them with their embeddings ([zip]), insert, report. *)
Definition ingest_chunks (self : service) (document_name content : string)
    (source_url : option string) (chunks : list EmbeddingService.chunk)
  : M ingestion_result :=
  let texts := map EmbeddingService.content chunks in
  embeddings <- EmbeddingService.embed_texts w (embedding_service self) texts ;;
  let vectors :=
    map (fun ce => vector_of source_url (fst ce) (snd ce)) (combine chunks embeddings) in
  EndeeClient.insert w (endee_client self) (index_name self) vectors ;;;
  ret {| ingested_document_name := document_name;
         chunks_added := Z.of_nat (List.length vectors);
         total_content_length := len content |}.

(** The keyword arguments [ingest_document] passes to [chunk_document]. *)
Definition chunker_kwargs (document_name content : string) : dict :=
  [ ("document_name", PStr document_name);
    ("content", PStr content);
    ("chunk_size", PInt (Config.chunk_size settings));
    ("chunk_overlap", PInt (Config.chunk_overlap settings)) ].

Definition ingest_document (fuel : nat) (self : service)
    (document_name content : string) (source_url : option string)
  : M ingestion_result :=
  chunks <- drawing_uuids w (fun ids =>
              EmbeddingService.call_chunk_document fuel ids
                (chunker_kwargs document_name content)) ;;
  ingest_chunks self document_name content source_url chunks.

(** The loop of [_generate_answer] over [enumerate(results[:3], 1)]. *)
Fixpoint context_loop (items : list pyval) (i : Z) (context_parts : list string)
  : M (list string) :=
  match items with
  | [] => ret context_parts
  | result :: rest =>
      md <- lift (py_get result "metadata" (PDict [])) ;;
      content <- lift (py_get md "content" (PStr "")) ;;
      if truthy content then
        preview <- lift (py_slice_prefix 300 content) ;;
        let shown := match preview with
                     | PStr p => p
                     | other => format_value w other
                     end in
        let part := "[Document " ++ str_of_Z i ++ "]:" ++ newline ++ shown ++ "..." in
        context_loop rest (i + 1) (context_parts ++ [part])%list
      else context_loop rest (i + 1) context_parts
  end.

Definition system_prompt : string :=
  "You are a helpful assistant that answers questions based on provided documents. Be concise and accurate.".

Definition _generate_answer (self : service) (query0 : string) (results0 : pyval)
  : M string :=
  match openai_client self with
  | None => ret "LLM not configured"
  | Some _ =>
      top <- lift (py_slice_prefix 3 results0) ;;
      items <- lift (py_iter top) ;;
      context_parts <- context_loop items 1 [] ;;
      let context := String.concat (newline ++ newline) context_parts in
      try_except
        (response <- chat w
           {| model := Config.openai_model settings;
              messages :=
                [ {| role := "system"; message_content := system_prompt |};
                  {| role := "user";
                     message_content :=
                       "Based on the following documents, answer the query:"
                         ++ newline ++ newline ++ "Query: " ++ query0
                         ++ newline ++ newline ++ "Context:" ++ newline ++ context |} ];
              max_tokens := Config.openai_max_tokens settings;
              temperature := Config.openai_temperature settings |} ;;
         first <- lift match response with
                       | [] => Raise (IndexError "list index out of range")
                       | c :: _ => Ok c
                       end ;;
         ret match first with
             | Some answer =>
                 if String.eqb answer "" then "Unable to generate answer" else answer
             | None => "Unable to generate answer"
             end)
        except_Exception
        (fun _ => ret "Error generating answer")
  end.

(** [top_k or settings.top_k_results] *)
Definition resolve_top_k (top_k : option Z) : Z :=
  match top_k with
  | Some k => if k =? 0 then Config.top_k_results settings else k
  | None => Config.top_k_results settings
  end.

Definition search (self : service) (query0 : string) (top_k : option Z)
    (use_llm : bool) : M search_result :=
  start_time <- time w ;;
  let top_k' := resolve_top_k top_k in
  query_embedding <- EmbeddingService.embed_text w (embedding_service self) query0 ;;
  retrieval_start <- time w ;;
  results0 <- EndeeClient.search w (endee_client self) (index_name self)
                query_embedding top_k' None ;;
  t_retrieved <- time w ;;
  let retrieval_time := fmul w (fsub w t_retrieved retrieval_start) 1000 in
  generated_answer0 <-
    (if use_llm && truthy results0
        && match openai_client self with Some _ => true | None => false end
     then answer <- _generate_answer self query0 results0 ;; ret (Some answer)
     else ret None) ;;
  t_end <- time w ;;
  let total_time := fmul w (fsub w t_end start_time) 1000 in
  count <- lift (py_len results0) ;;
  ret {| query := query0;
         results := results0;
         generated_answer := generated_answer0;
         retrieval_time_ms := retrieval_time;
         total_time_ms := total_time;
         result_count := count |}.

Definition get_statistics (self : service) : M dict :=
  try_except
    (EndeeClient.get_index_stats w (endee_client self) (index_name self))
    except_Exception
    (fun _ => ret [ ("error", PStr "Unable to fetch statistics") ]).

Definition list_indices (self : service) : M pyval :=
  EndeeClient.list_indices w (endee_client self).

End WithWorld.

End RAGService.

(* ================================================================== *)
(** ** src/main.py: the ingestion route *)

Module Main.

Section WithWorld.
Variable w : World.
Variable settings : Config.Settings.

(** The handler [ingest_document] of [POST /api/v1/ingest], as a function of
    the values bound to its parameters; [rag_service] is the global set at
    start-up.  The route itself, with the binding of the form fields, is
    [post_ingest] below. *)
Definition ingest_document (fuel : nat) (rag_service : option RAGService.service)
    (document_name content : string) (source_url : option string)
  : M RAGService.ingestion_result :=
  match rag_service with
  | None => raise (HTTPException 503 "RAG service not initialized")
  | Some service0 =>
      if String.eqb document_name "" || String.eqb content "" then
        raise (HTTPException 400 "document_name and content are required")
      else
        try_except
          (RAGService.ingest_document w settings fuel service0
             document_name content source_url)
          except_Exception
          (fun e => raise (HTTPException 500 (str_of_exn w e)))
  end.




(** [GET /health] *)
Record HealthResponse : Type := {
  status : string;
  rag_initialized : bool;
  endee_connected : bool
}.

Definition health_check (rag_service : option RAGService.service) : M HealthResponse :=
  match rag_service with
  | None => raise (HTTPException 503 "RAG service not initialized")
  | Some service0 =>
      connected <- EndeeClient.health_check w (RAGService.endee_client service0) ;;
      ret {| status := if connected : bool then "healthy" else "degraded";
             rag_initialized := true;
             endee_connected := connected |}
  end.

(** The body of [POST /api/v1/search]. *)
Record SearchRequest : Type := {
  request_query : string;
  request_top_k : option Z;
  request_use_llm : bool
}.

(** Construction of a [SearchResponse] from the result: the model declares [results: List[dict]]
    and rejects any other value of the field; the other fields have the
    declared types by construction. *)
Definition is_list_of_dict (v : pyval) : bool :=
  match v with
  | PList l => forallb (fun x => match x with PDict _ => true | _ => false end) l
  | _ => false
  end.

Definition SearchResponse (result : RAGService.search_result)
  : M RAGService.search_result :=
  if is_list_of_dict (RAGService.results result) then ret result
  else raise (OtherException "ValidationError").

Definition search (rag_service : option RAGService.service) (request : SearchRequest)
  : M RAGService.search_result :=
  match rag_service with
  | None => raise (HTTPException 503 "RAG service not initialized")
  | Some service0 =>
      if String.eqb (request_query request) "" then
        raise (HTTPException 400 "query is required")
      else
        try_except
          (result <- RAGService.search w settings service0 (request_query request)
                       (request_top_k request) (request_use_llm request) ;;
           SearchResponse result)
          except_Exception
          (fun e => raise (HTTPException 500 (str_of_exn w e)))
  end.

(** [POST /api/v1/ingest-file].  The upload is seen through what
    [file.read()] gives and its file name; [decode_utf8] is
    [bytes.decode("utf-8")], [None] where Python raises UnicodeDecodeError
    (bytes are a [string] of 8-bit characters). *)
Record UploadFile : Type := {
  filename : option string;
  file_read : answer string
}.

Definition UnicodeDecodeError : exn := OtherException "UnicodeDecodeError".

Definition is_UnicodeDecodeError (e : exn) : bool :=
  match e with
  | OtherException msg => String.eqb msg "UnicodeDecodeError"
  | _ => false
  end.

Definition ingest_file (decode_utf8 : string -> option string) (fuel : nat)
    (rag_service : option RAGService.service) (file : UploadFile)
    (source_url : option string) : M RAGService.ingestion_result :=
  match rag_service with
  | None => raise (HTTPException 503 "RAG service not initialized")
  | Some service0 =>
      try_except
        (content <- lift (of_answer (file_read file)) ;;
         content_str <- match decode_utf8 content with
                        | Some text0 => ret text0
                        | None => raise UnicodeDecodeError
                        end ;;
         RAGService.ingest_document w settings fuel service0
           match filename file with
           | Some name => if String.eqb name "" then "document" else name
           | None => "document"
           end
           content_str source_url)
        except_Exception
        (fun e =>
           if is_UnicodeDecodeError e then
             raise (HTTPException 400 "File must be valid UTF-8 text")
           else raise (HTTPException 500 (str_of_exn w e)))
  end.

(** [GET /api/v1/statistics] *)
Definition get_statistics (rag_service : option RAGService.service) : M dict :=
  match rag_service with
  | None => raise (HTTPException 503 "RAG service not initialized")
  | Some service0 => RAGService.get_statistics w service0
  end.

(** [GET /api/v1/indices] *)
Definition list_indices (rag_service : option RAGService.service) : M dict :=
  match rag_service with
  | None => raise (HTTPException 503 "RAG service not initialized")
  | Some service0 =>
      indices <- RAGService.list_indices w service0 ;;
      count <- lift (py_len indices) ;;
      ret [ ("indices", indices); ("count", PInt count) ]
  end.

End WithWorld.

End Main.

(* ================================================================== *)
(** ** Predicates used to state the properties of the chunker *)

Module ChunkSpec.
Import EmbeddingService.

(** [chunk_index] values are exactly 0..n-1 in emission order. *)
Definition indexed_from_zero (chunks : list chunk) : Prop :=
  map (fun c => chunk_index (metadata c)) chunks
  = map Z.of_nat (seq 0 (List.length chunks)).

(** Every span starts at or before the end of the one before it;
    [prev_end] is the end of the span that precedes the list. *)
Fixpoint chained (prev_end : Z) (spans : list (Z * Z)) : Prop :=
  match spans with
  | [] => True
  | (s, e) :: rest => s <= prev_end /\ chained e rest
  end.

(** The spans tile [0, L) without a gap: the first starts at 0, each later
    one starts at or before the end of its predecessor, the last ends at L.
    No span at all is right for L = 0 only. *)
Definition contiguous (L : Z) (spans : list (Z * Z)) : Prop :=
  match spans with
  | [] => L = 0
  | (s, e) :: rest =>
      s = 0 /\ chained e rest /\ snd (last spans (0, 0)) = L
  end.

(** Every position of [0, L) lies in the span of some chunk. *)
Definition covers (L : Z) (chunks : list chunk) : Prop :=
  forall p : Z, 0 <= p < L ->
    exists c : chunk,
      In c chunks /\ start_pos (metadata c) <= p < end_pos (metadata c).

(** Chunk invariant of the data model: 0 <= start_pos < end_pos <= L. *)
Definition well_formed_span (L : Z) (se : Z * Z) : Prop :=
  0 <= fst se /\ fst se < snd se /\ snd se <= L.

(** The single chunk emitted for a content that fits in one chunk. *)
Definition whole_chunk (uuid4 : nat -> string) (document_name0 content0 : string)
  : chunk :=
  {| id := uuid4 O;
     content := content0;
     metadata := {| document_name := document_name0;
                    chunk_index := 0;
                    original_length := len content0;
                    start_pos := 0;
                    end_pos := len content0 |} |}.

End ChunkSpec.

(* ================================================================== *)
(** ** Vocabulary used to state the properties of start-up *)

Module StoreSpec.

(** What one health poll answers, read off the world: healthy exactly when
    the server answers request number [poll] of the run with status 200. *)
Definition healthy_at (w : World) (self : EndeeClient.client) (poll : nat) : bool :=
  match session_request w poll (EndeeClient.health_request self) with
  | Answer response => status_code response =? 200
  | Failure _ => false
  end.

(** The trace of [n] polls that found the store unhealthy: each is followed
    by a sleep of one second. *)
Definition failed_polls (self : EndeeClient.client) (n : nat) : list event :=
  List.concat (repeat [Http (EndeeClient.health_request self); Sleep 1] n).

Definition after_failed_polls (self : EndeeClient.client) (n : nat) (st : state)
  : state :=
  {| http_count := (http_count st + n)%nat;
     clock_count := clock_count st;
     chat_count := chat_count st;
     uuid_count := uuid_count st;
     log := (log st ++ failed_polls self n)%list |}.

(** The request that creates the index of a service. *)
Definition create_request (self : RAGService.service) : http_request :=
  EndeeClient.api_request (RAGService.endee_client self) "POST" "/api/v1/index/create"
    (Some (EndeeClient.create_index_data
             (RAGService.index_name self)
             (EmbeddingService.dimension (RAGService.embedding_service self))
             "cosine")).

(** The server accepts a request: a status outside 400..599 and a body that
    is empty or valid JSON. *)
Definition accepted (response : http_response) : Prop :=
  (status_code response < 400 \/ 600 <= status_code response)
  /\ (text response = "" \/ body response <> None).

(** The request that searches the index of a service. *)
Definition search_request (self : RAGService.service) (query_vector : embedding)
    (k : Z) : http_request :=
  EndeeClient.api_request (RAGService.endee_client self) "POST"
    ("/api/v1/index/" ++ RAGService.index_name self ++ "/search")
    (Some (EndeeClient.search_data query_vector k None)).

(** The results the client reads in an accepted response. *)
Definition results_of (response : http_response) : pyval :=
  dict_get (if String.eqb (text response) "" then []
            else match body response with Some d => d | None => [] end)
           "results" (PList []).

(** A search result whose content, if it has one, is text (or is skipped
    as falsy): the shape of what ingestion stores. *)
Definition text_result (result : pyval) : bool :=
  match result with
  | PDict kv =>
      match dict_get kv "metadata" (PDict []) with
      | PDict md =>
          match dict_get md "content" (PStr "") with
          | PStr _ => true
          | other => negb (truthy other)
          end
      | _ => false
      end
  | _ => false
  end.

(** Events of the answer generation: chat completions only. *)
Definition only_chat (events : list event) : Prop :=
  Forall (fun ev => exists req : chat_request, ev = Chat req) events.


End StoreSpec.

(* ================================================================== *)
(** ** Concrete worlds and services used in the examples *)

Module Examples.

Definition sample_results : pyval :=
  PList [ PDict [ ("id", PStr "a"); ("score", PFloat (9 # 10));
                  ("metadata", PDict [ ("content", PStr "first passage") ]) ];
          PDict [ ("id", PStr "b"); ("score", PFloat (8 # 10));
                  ("metadata", PDict [ ("content", PStr "second passage") ]) ] ].

Definition ok_response : http_response :=
  {| status_code := 200; text := "{...}";
     body := Some [ ("results", sample_results) ] |}.

(** The store answers from request number [up_from] on and refuses the
    connection before; the clock advances one second per reading; the
    chat endpoint always fails. *)
Definition world (up_from : nat) : World :=
  {| session_request := fun n _ =>
       if (n <? up_from)%nat then Failure (RequestException "connection refused")
       else Answer ok_response;
     time_time := fun n => inject_Z (Z.of_nat n);
     float_round := fun q => q;
     model_dimension := 384;
     model_encode := fun _ => Answer [1 # 2; 1 # 3];
     model_encode_batch := fun texts => Answer (map (fun _ => [1 # 2; 1 # 3]) texts);
     chat_completions_create := fun _ _ => Failure (OtherException "rate limited");
     uuid4 := fun n => "uuid-" ++ str_of_Z (Z.of_nat n);
     format_value := fun _ => "<value>";
     str_of_exn := fun _ => "<error>" |}.

Definition settings_with_llm : Config.Settings :=
  {| Config.endee_base_url := "http://localhost:8080";
     Config.endee_auth_token := None;
     Config.endee_timeout := 30;
     Config.embedding_model := "all-MiniLM-L6-v2";
     Config.chunk_size := 512;
     Config.chunk_overlap := 50;
     Config.top_k_results := 5;
     Config.openai_api_key := Some "sk-test";
     Config.openai_model := "gpt-3.5-turbo";
     Config.openai_temperature := 7 # 10;
     Config.openai_max_tokens := 500 |}.

(** The service of the application, without and with an LLM client. *)
Definition plain_service : RAGService.service :=
  RAGService.init (world 0) Config.default_settings "documents" None.

Definition llm_service : RAGService.service :=
  RAGService.init (world 0) settings_with_llm "documents" None.

(** A content of exactly 1000 characters. *)
Definition thousand_chars : string :=
  string_of_list_ascii (repeat "x"%char 1000).

End Examples.

(* ================================================================== *)
(** ** Vocabulary for the layout of the chunks *)

Module ChunkLayout.
Import EmbeddingService.

(** The number of chunks of a content of length [L]: none for an empty
    content, one when the content fits in a chunk, and otherwise one more
    than the number of steps needed to bring the end of a chunk to [L]. *)
Definition chunk_count (L chunk_size0 step : Z) : nat :=
  Z.to_nat (if L =? 0 then 0
            else if L <=? chunk_size0 then 1
                 else (L - chunk_size0 + step - 1) / step + 1).

(** The span of the chunk of rank [k]. *)
Definition nth_span (L chunk_size0 step : Z) (k : nat) : Z * Z :=
  (Z.of_nat k * step, Z.min (Z.of_nat k * step + chunk_size0) L).

Definition layout (L chunk_size0 step : Z) : list (Z * Z) :=
  map (nth_span L chunk_size0 step) (seq 0 (chunk_count L chunk_size0 step)).

(** Every span but the last is exactly [chunk_size0] long and stops before
    [L]; its successor starts [overlap] positions before its end; the last
    span ends at [L]. *)
Fixpoint tiled (L chunk_size0 overlap : Z) (spans : list (Z * Z)) : Prop :=
  match spans with
  | [] => True
  | (s, e) :: rest =>
      match rest with
      | [] => e = L
      | (s', _) :: _ =>
          e = s + chunk_size0 /\ e < L /\ s' = e - overlap
          /\ tiled L chunk_size0 overlap rest
      end
  end.

(** What a chunk records about its document. *)
Definition describes (document_name0 content0 : string) (c : chunk) : Prop :=
  content c = str_slice content0 (start_pos (metadata c)) (end_pos (metadata c))
  /\ len (content c) = end_pos (metadata c) - start_pos (metadata c)
  /\ document_name (metadata c) = document_name0
  /\ original_length (metadata c) = len content0.

(** The text of the chunks put back together: the first chunk, then every
    later chunk without its first [overlap] characters. *)
Definition reassemble (overlap : Z) (chunks : list chunk) : string :=
  match chunks with
  | [] => ""
  | c :: rest =>
      content c
      ++ String.concat ""
           (map (fun c' => str_slice (content c') overlap (len (content c'))) rest)
  end.

(** [n] slashes. *)
Definition slashes (n : nat) : string := string_of_list_ascii (repeat "/"%char n).

Fixpoint last_char (s : string) : option ascii :=
  match s with
  | EmptyString => None
  | String c EmptyString => Some c
  | String _ rest => last_char rest
  end.

End ChunkLayout.

(* ================================================================== *)
(** ** Vocabulary for the session built by the client *)

Module SessionSpec.

(** The methods the retry policy applies to when the status of the answer
    is in the force list: those [Retry] allows by default (the client sets
    no [allowed_methods]).  [POST] is not among them. *)
Definition retried_method (method : string) : bool :=
  existsb (String.eqb method) ["DELETE"; "GET"; "HEAD"; "OPTIONS"; "PUT"; "TRACE"].

Definition forced_status (status : Z) : bool :=
  existsb (Z.eqb status) EndeeClient.status_forcelist.

(** A response the session can hand back for a request: for a retried
    method a status of the force list never comes back as a response; once
    the retries are used up the session raises instead. *)
Definition hands_back (method : string) (status : Z) : bool :=
  negb (retried_method method && forced_status status).

(** What the session raises then ([requests.exceptions.RetryError], a
    [RequestException]). *)
Definition RetryError : exn := RequestException "RetryError".


End SessionSpec.

(* ================================================================== *)
(** ** More worlds for the examples *)

Module Scenarios.

(** A store that answers every request with the given status and an empty
    body, seen through the session of the client: where the retry policy
    applies the session raises [RetryError]; everything else as in
    [Examples.world]. *)
Definition store_answering (status : Z) : World :=
  {| session_request := fun _ req =>
       if SessionSpec.hands_back (req_method req) status
       then Answer {| status_code := status; text := ""; body := None |}
       else Failure SessionSpec.RetryError;
     time_time := time_time (Examples.world 0);
     float_round := float_round (Examples.world 0);
     model_dimension := model_dimension (Examples.world 0);
     model_encode := model_encode (Examples.world 0);
     model_encode_batch := model_encode_batch (Examples.world 0);
     chat_completions_create := chat_completions_create (Examples.world 0);
     uuid4 := uuid4 (Examples.world 0);
     format_value := format_value (Examples.world 0);
     str_of_exn := str_of_exn (Examples.world 0) |}.

(** The store of [Examples.world 0] with a chat endpoint that gives the
    answer [reply] to every completion. *)
Definition chat_answering (reply : answer chat_response) : World :=
  {| session_request := session_request (Examples.world 0);
     time_time := time_time (Examples.world 0);
     float_round := float_round (Examples.world 0);
     model_dimension := model_dimension (Examples.world 0);
     model_encode := model_encode (Examples.world 0);
     model_encode_batch := model_encode_batch (Examples.world 0);
     chat_completions_create := fun _ _ => reply;
     uuid4 := uuid4 (Examples.world 0);
     format_value := format_value (Examples.world 0);
     str_of_exn := str_of_exn (Examples.world 0) |}.

(** A store whose search returns one result with a null metadata. *)
Definition null_metadata_results : pyval :=
  PList [ PDict [ ("id", PStr "a"); ("score", PFloat (9 # 10)); ("metadata", PNone) ] ].

Definition store_with_null_metadata : World :=
  {| session_request := fun _ _ =>
       Answer {| status_code := 200; text := "{...}";
                 body := Some [ ("results", null_metadata_results) ] |};
     time_time := time_time (Examples.world 0);
     float_round := float_round (Examples.world 0);
     model_dimension := model_dimension (Examples.world 0);
     model_encode := model_encode (Examples.world 0);
     model_encode_batch := model_encode_batch (Examples.world 0);
     chat_completions_create := chat_completions_create (Examples.world 0);
     uuid4 := uuid4 (Examples.world 0);
     format_value := format_value (Examples.world 0);
     str_of_exn := str_of_exn (Examples.world 0) |}.

(** A store that is healthy (status 200 to the first request) and answers
    every later request with the given status and an empty body. *)
Definition store_healthy_then (status : Z) : World :=
  {| session_request := fun n _ =>
       Answer {| status_code := if (n =? 0)%nat then 200 else status;
                 text := ""; body := None |};
     time_time := time_time (Examples.world 0);
     float_round := float_round (Examples.world 0);
     model_dimension := model_dimension (Examples.world 0);
     model_encode := model_encode (Examples.world 0);
     model_encode_batch := model_encode_batch (Examples.world 0);
     chat_completions_create := chat_completions_create (Examples.world 0);
     uuid4 := uuid4 (Examples.world 0);
     format_value := format_value (Examples.world 0);
     str_of_exn := str_of_exn (Examples.world 0) |}.

(** The world of [Examples.world 0] with a wall clock that is set back
    after its first reading: it reads 5, 1, 2, 3, ... *)
Definition clock_set_back : World :=
  {| session_request := session_request (Examples.world 0);
     time_time := fun n => match n with
                           | O => inject_Z 5
                           | S _ => inject_Z (Z.of_nat n)
                           end;
     float_round := float_round (Examples.world 0);
     model_dimension := model_dimension (Examples.world 0);
     model_encode := model_encode (Examples.world 0);
     model_encode_batch := model_encode_batch (Examples.world 0);
     chat_completions_create := chat_completions_create (Examples.world 0);
     uuid4 := uuid4 (Examples.world 0);
     format_value := format_value (Examples.world 0);
     str_of_exn := str_of_exn (Examples.world 0) |}.

(** An embedding model that fails. *)
Definition model_failing : World :=
  {| session_request := session_request (Examples.world 0);
     time_time := time_time (Examples.world 0);
     float_round := float_round (Examples.world 0);
     model_dimension := model_dimension (Examples.world 0);
     model_encode := fun _ => Failure (OtherException "out of memory");
     model_encode_batch := fun _ => Failure (OtherException "out of memory");
     chat_completions_create := chat_completions_create (Examples.world 0);
     uuid4 := uuid4 (Examples.world 0);
     format_value := format_value (Examples.world 0);
     str_of_exn := str_of_exn (Examples.world 0) |}.

End Scenarios.

(* ================================================================== *)
(** ** Vocabulary for the effects of a call *)

Module Effects.

(** The run of [m] from [st] sends exactly one HTTP request and does
    nothing else to the state. *)
Definition sends_one_request {A : Type} (m : M A) (st : state) : Prop :=
  exists req : http_request, snd (m st) = sent req st.

(** The run issued no request to the store. *)
Definition no_store_request (st st' : state) : Prop :=
  http_count st' = http_count st.

(** The run asked for no chat completion. *)
Definition no_chat (st st' : state) : Prop :=
  chat_count st' = chat_count st.

(** The run of [m] leaves a counter of the state as it was, from every
    state and whatever the outcome. *)
Definition preserves {A : Type} (counter : state -> nat) (m : M A) : Prop :=
  forall st : state, counter (snd (m st)) = counter st.

(** An error status of HTTP. *)
Definition error_status (status : Z) : Prop := 400 <= status < 600.

(** The JSON object the client reads in an accepted response: the empty
    object when the body is empty. *)
Definition json_of (response : http_response) : dict :=
  if String.eqb (text response) "" then []
  else match body response with Some d => d | None => [] end.

(** The marker [get_statistics] returns instead of failing. *)
Definition statistics_unavailable : dict :=
  [ ("error", PStr "Unable to fetch statistics") ].

End Effects.

(* ================================================================== *)
(** * Properties *)

Import EmbeddingService ChunkSpec StoreSpec.

(** ** The chunker *)

Section Chunker.

Variable uuid4 : nat -> string.
Variables document_name0 content0 : string.
Variables chunk_size0 step : Z.

(** The spans of the chunks depend on the length of the content only. *)
Lemma chunk_loop_spans (fuel : nat) :
  forall (i : Z) (chunks : list chunk),
    outcome_map (map span)
      (chunk_loop fuel uuid4 document_name0 content0 chunk_size0 step i chunks)
    = outcome_map (app (map span chunks))
        (span_loop fuel (len content0) chunk_size0 step i).
Proof.
  induction fuel as [|fuel IH]; intros i chunks; cbn [chunk_loop span_loop].
  - reflexivity.
  - destruct (i <? (len content0)).
    + destruct (Z.min (i + chunk_size0) (len content0) >=? (len content0)).
      * cbn. rewrite map_app. reflexivity.
      * rewrite IH. rewrite map_app. cbn [map span metadata start_pos end_pos].
        destruct (span_loop fuel (len content0) chunk_size0 step (i + step)); cbn; trivial.
        rewrite <- app_assoc. reflexivity.
    + cbn. rewrite app_nil_r. reflexivity.
Qed.

(** The loop never raises. *)
Lemma chunk_loop_no_raise (fuel : nat) :
  forall (i : Z) (chunks : list chunk) (e : exn),
    chunk_loop fuel uuid4 document_name0 content0 chunk_size0 step i chunks <> Raise e.
Proof.
  induction fuel as [|fuel IH]; intros i chunks e; cbn [chunk_loop].
  - discriminate.
  - destruct (i <? len content0); [|discriminate].
    destruct (_ >=? _); [discriminate|]. apply IH.
Qed.

(** More fuel does not change a result already obtained. *)
Lemma chunk_loop_fuel_mono (fuel : nat) :
  forall (fuel' : nat) (i : Z) (chunks r : list chunk),
    (fuel <= fuel')%nat ->
    chunk_loop fuel uuid4 document_name0 content0 chunk_size0 step i chunks = Ok r ->
    chunk_loop fuel' uuid4 document_name0 content0 chunk_size0 step i chunks = Ok r.
Proof.
  induction fuel as [|fuel IH]; intros fuel' i chunks r Hle; cbn [chunk_loop].
  - discriminate.
  - destruct fuel' as [|fuel']; [lia|]. cbn [chunk_loop].
    destruct (i <? len content0); trivial.
    destruct (_ >=? _); trivial.
    apply IH. lia.
Qed.

Lemma indexed_from_zero_snoc (chunks : list chunk) (c : chunk) :
  indexed_from_zero chunks ->
  chunk_index (metadata c) = Z.of_nat (List.length chunks) ->
  indexed_from_zero (chunks ++ [c])%list.
Proof.
  unfold indexed_from_zero. intros H Hc.
  rewrite map_app, length_app, seq_app, map_app, H. cbn. rewrite Hc. reflexivity.
Qed.

Lemma chunk_loop_indexed (fuel : nat) :
  forall (i : Z) (chunks r : list chunk),
    indexed_from_zero chunks ->
    chunk_loop fuel uuid4 document_name0 content0 chunk_size0 step i chunks = Ok r ->
    indexed_from_zero r.
Proof.
  induction fuel as [|fuel IH]; intros i chunks r Hidx; cbn [chunk_loop].
  - discriminate.
  - destruct (i <? len content0).
    + destruct (_ >=? _).
      * intros [= <-]. apply indexed_from_zero_snoc; trivial.
      * apply IH. apply indexed_from_zero_snoc; trivial.
    + intros [= <-]. exact Hidx.
Qed.

End Chunker.

(** ** Spans produced under a valid configuration *)

Section ValidSpans.

Variables L chunk_size0 step : Z.
Hypothesis step_pos : 1 <= step.
Hypothesis step_le : step <= chunk_size0.

(** From a cursor inside the content the loop ends within [L - i] tests
    and the spans it emits are well formed, chained and end at [L]. *)
Lemma span_loop_valid (fuel : nat) :
  forall i : Z,
    0 <= i < L -> L - i <= Z.of_nat fuel ->
    exists (e : Z) (rest : list (Z * Z)),
      span_loop fuel L chunk_size0 step i = Ok ((i, e) :: rest)
      /\ i < e <= L
      /\ chained e rest
      /\ snd (last ((i, e) :: rest) (0, 0)) = L
      /\ Forall (well_formed_span L) ((i, e) :: rest).
Proof.
  induction fuel as [|fuel IH]; intros i Hi Hfuel.
  - cbn in Hfuel. lia.
  - cbn [span_loop].
    destruct (Z.ltb_spec i L) as [_|?]; [|lia].
    destruct (Z.geb_spec (Z.min (i + chunk_size0) L) L) as [Hge|Hlt].
    + exists (Z.min (i + chunk_size0) L), [].
      split; [reflexivity|]. split; [lia|]. split; [exact I|]. split; [cbn; lia|].
      constructor; [|constructor]. unfold well_formed_span; cbn. lia.
    + assert (Hmin : Z.min (i + chunk_size0) L = i + chunk_size0) by lia.
      rewrite Hmin in *.
      destruct (IH (i + step)) as (e' & rest' & Heq & He' & Hch & Hlast & Hwf);
        [lia | lia |].
      rewrite Heq. cbn [outcome_map].
      exists (i + chunk_size0), ((i + step, e') :: rest').
      split; [reflexivity|]. split; [lia|]. split; [|split].
      * cbn [chained]. split; [lia | exact Hch].
      * exact Hlast.
      * constructor; [|exact Hwf]. unfold well_formed_span; cbn. lia.
Qed.

End ValidSpans.

(** A chain of non-empty spans covers everything from its first start to
    its last end. *)
Lemma chained_covers (rest : list (Z * Z)) :
  forall (s e p : Z),
    chained e rest ->
    s <= p < snd (last ((s, e) :: rest) (0, 0)) ->
    exists se : Z * Z, In se ((s, e) :: rest) /\ fst se <= p < snd se.
Proof.
  induction rest as [|[s' e'] rest IH]; intros s e p Hch Hp.
  - exists (s, e). cbn in *. split; [left; reflexivity | lia].
  - destruct (Z.lt_ge_cases p e) as [Hlt|Hge].
    + exists (s, e). split; [left; reflexivity | cbn; lia].
    + cbn [chained] in Hch. destruct Hch as [Hs' Hch].
      destruct (IH s' e' p Hch) as (se & Hin & Hse).
      * change (last ((s, e) :: (s', e') :: rest) (0, 0))
          with (last ((s', e') :: rest) (0, 0)) in Hp. lia.
      * exists se. split; [right; exact Hin | exact Hse].
Qed.

Lemma chunk_document_spans (fuel : nat) (uuid4 : nat -> string)
    (document_name0 content0 : string) (chunk_size0 overlap : Z) :
  outcome_map (map span)
    (chunk_document fuel uuid4 document_name0 content0 chunk_size0 overlap)
  = span_loop fuel (len content0) chunk_size0 (chunk_size0 - overlap) 0.
Proof.
  unfold chunk_document. rewrite chunk_loop_spans. cbn [map app].
  destruct (span_loop _ _ _ _ _); reflexivity.
Qed.

Lemma chunk_document_empty (fuel : nat) (uuid4 : nat -> string)
    (document_name0 : string) (chunk_size0 overlap : Z) :
  chunk_document (S fuel) uuid4 document_name0 "" chunk_size0 overlap = Ok [].
Proof. reflexivity. Qed.

Lemma len_zero_empty (s : string) : len s = 0 -> s = "".
Proof. destruct s; [reflexivity | unfold len; cbn; lia]. Qed.

Lemma len_nonneg (s : string) : 0 <= len s.
Proof. unfold len. lia. Qed.

(** C2. For every content of length L and every chunk_size > overlap >= 0,
    chunk_document returns (with any loop budget above L) a list of chunks
    whose spans tile [0, L) without gaps: the first starts at 0, every later
    chunk starts at or before the end of the previous one, the last ends at
    L, so every position of [0, L) is in some chunk; every chunk satisfies
    0 <= start_pos < end_pos <= L; the chunk_index values are 0..n-1 in
    emission order; and for L = 0 the list is empty. *)
Theorem chunk_document_coverage
    (uuid4 : nat -> string) (document_name0 content0 : string)
    (chunk_size0 overlap : Z) :
  chunk_size0 > overlap -> overlap >= 0 ->
  exists chunks : list chunk,
    (forall fuel : nat, (String.length content0 < fuel)%nat ->
       chunk_document fuel uuid4 document_name0 content0 chunk_size0 overlap
       = Ok chunks)
    /\ contiguous (len content0) (map span chunks)
    /\ covers (len content0) chunks
    /\ Forall (well_formed_span (len content0)) (map span chunks)
    /\ indexed_from_zero chunks
    /\ (len content0 = 0 -> chunks = []).
Proof.
  intros Hsize Hoverlap.
  destruct (Z.eq_dec (len content0) 0) as [Hz|Hnz].
  - apply len_zero_empty in Hz. subst content0.
    exists []. split; [|split; [|split; [|split; [|split]]]].
    + intros [|fuel] Hf; [cbn in Hf; lia | reflexivity].
    + reflexivity.
    + intros p Hp. cbn in Hp. lia.
    + constructor.
    + reflexivity.
    + reflexivity.
  - pose proof (len_nonneg content0) as Hlen.
    set (fuel0 := String.length content0).
    destruct (span_loop_valid (len content0) chunk_size0 (chunk_size0 - overlap)
                ltac:(lia) ltac:(lia) fuel0 0)
      as (e & rest & Hspans & He & Hch & Hlast & Hwf);
      [lia | unfold fuel0, len; lia |].
    pose proof (chunk_document_spans fuel0 uuid4 document_name0 content0
                  chunk_size0 overlap) as Hmap.
    rewrite Hspans in Hmap.
    destruct (chunk_document fuel0 uuid4 document_name0 content0 chunk_size0 overlap)
      as [chunks| |] eqn:Hrun; cbn in Hmap; try discriminate.
    injection Hmap as Hmap.
    exists chunks. rewrite Hmap.
    split; [|split; [|split; [|split; [|split]]]].
    + intros fuel Hf. unfold chunk_document in *.
      eapply chunk_loop_fuel_mono; [|exact Hrun]. unfold fuel0. lia.
    + cbn [contiguous]. auto.
    + intros p Hp.
      destruct (chained_covers rest 0 e p Hch) as (se & Hin & Hse); [lia|].
      rewrite <- Hmap in Hin. apply in_map_iff in Hin.
      destruct Hin as (c & <- & Hc). exists c. split; [exact Hc | exact Hse].
    + exact Hwf.
    + unfold chunk_document in Hrun.
      eapply chunk_loop_indexed; [|exact Hrun]. reflexivity.
    + intros Hz. contradiction.
Qed.

(** The coverage theorem at the configuration of the
    test suite (chunk_size 100, overlap 10). *)
Lemma chunk_document_coverage_witness :
  exists chunks : list chunk,
    (forall fuel : nat, (String.length "Hello world. " < fuel)%nat ->
       chunk_document fuel (fun _ => "u") "test" "Hello world. " 100 10 = Ok chunks)
    /\ contiguous (len "Hello world. ") (map span chunks)
    /\ covers (len "Hello world. ") chunks
    /\ Forall (well_formed_span (len "Hello world. ")) (map span chunks)
    /\ indexed_from_zero chunks
    /\ (len "Hello world. " = 0 -> chunks = []).
Proof.
  apply (chunk_document_coverage (fun _ => "u") "test" "Hello world. " 100 10); lia.
Defined.

(** ** Short contents and degenerate configurations *)

Lemma substring_all (s : string) : substring 0 (String.length s) s = s.
Proof. induction s as [|a s IH]; cbn; [reflexivity | now rewrite IH]. Qed.

Lemma str_slice_all (s : string) : str_slice s 0 (len s) = s.
Proof.
  unfold str_slice, slice_bound. pose proof (len_nonneg s) as Hs.
  destruct (Z.ltb_spec 0 0) as [?|_]; [lia|].
  destruct (Z.ltb_spec (len s) 0) as [?|_]; [lia|].
  rewrite Z.min_l by lia. rewrite Z.min_id. cbn [Z.to_nat].
  rewrite Z.sub_0_r. unfold len. rewrite Nat2Z.id. apply substring_all.
Qed.

Lemma chunk_document_single_chunk_aux
    (fuel : nat) (uuid4 : nat -> string) (document_name0 content0 : string)
    (chunk_size0 overlap : Z) :
  content0 <> "" ->
  len content0 <= chunk_size0 ->
  chunk_document (S fuel) uuid4 document_name0 content0 chunk_size0 overlap
  = Ok [whole_chunk uuid4 document_name0 content0].
Proof.
  intros Hne Hfit.
  assert (Hpos : 0 < len content0).
  { pose proof (len_nonneg content0).
    destruct (Z.eq_dec (len content0) 0) as [Hz|]; [|lia].
    apply len_zero_empty in Hz. contradiction. }
  unfold chunk_document. cbn [chunk_loop].
  destruct (Z.ltb_spec 0 (len content0)) as [_|?]; [|lia].
  rewrite Z.add_0_l, Z.min_r by lia.
  destruct (Z.geb_spec (len content0) (len content0)) as [_|?]; [|lia].
  rewrite str_slice_all. reflexivity.
Qed.

(** C10. For every non-empty content no longer than chunk_size, and for every
    overlap (also overlap >= chunk_size), chunk_document terminates on the
    first test of the loop and returns exactly one chunk: the whole content,
    span [0, len(content)), chunk_index 0. *)
Theorem chunk_document_single_chunk
    (fuel : nat) (uuid4 : nat -> string) (document_name0 content0 : string)
    (chunk_size0 overlap : Z) :
  content0 <> "" ->
  len content0 <= chunk_size0 ->
  chunk_document (S fuel) uuid4 document_name0 content0 chunk_size0 overlap
  = Ok [whole_chunk uuid4 document_name0 content0].
Proof. apply chunk_document_single_chunk_aux. Qed.

(** The single-chunk theorem with overlap above chunk_size. *)
Lemma chunk_document_single_chunk_witness :
  chunk_document 1 (fun _ => "u") "doc" "abc" 3 7
  = Ok [whole_chunk (fun _ => "u") "doc" "abc"].
Proof.
  apply (chunk_document_single_chunk 0 (fun _ => "u") "doc" "abc" 3 7).
  - discriminate.
  - vm_compute. discriminate.
Defined.

(** With overlap >= chunk_size the cursor never moves forward, so a content
    longer than chunk_size exhausts every loop budget. *)
Lemma chunk_loop_stuck (fuel : nat) (uuid4 : nat -> string)
    (document_name0 content0 : string) (chunk_size0 step : Z) :
  step <= 0 -> 0 < len content0 -> chunk_size0 < len content0 ->
  forall (i : Z) (chunks : list chunk),
    i <= 0 ->
    chunk_loop fuel uuid4 document_name0 content0 chunk_size0 step i chunks
    = OutOfFuel.
Proof.
  intros Hstep Hpos Hlong.
  induction fuel as [|fuel IH]; intros i chunks Hi; cbn [chunk_loop].
  - reflexivity.
  - destruct (Z.ltb_spec i (len content0)) as [_|?]; [|lia].
    destruct (Z.geb_spec (Z.min (i + chunk_size0) (len content0)) (len content0))
      as [?|_]; [lia|].
    apply IH. lia.
Qed.

Lemma chunk_document_degenerate_diverges (fuel : nat) (uuid4 : nat -> string)
    (document_name0 content0 : string) (chunk_size0 overlap : Z) :
  overlap >= chunk_size0 -> content0 <> "" -> chunk_size0 < len content0 ->
  chunk_document fuel uuid4 document_name0 content0 chunk_size0 overlap = OutOfFuel.
Proof.
  intros Hdeg Hne Hlong. pose proof (len_nonneg content0) as Hlen.
  assert (Hpos : 0 < len content0).
  { destruct (Z.eq_dec (len content0) 0) as [Hz|]; [|lia].
    apply len_zero_empty in Hz. contradiction. }
  unfold chunk_document. apply chunk_loop_stuck; lia.
Qed.

(** C1 (as the code has it). chunk_document has no check of its
    configuration and never raises, whatever the loop budget.  With
    overlap >= chunk_size it returns normally on a content that fits in one
    chunk: no chunk for the empty content, exactly one chunk for a non-empty
    content of at most chunk_size characters. *)
Theorem chunk_document_degenerate_config
    (fuel : nat) (uuid4 : nat -> string) (document_name0 content0 : string)
    (chunk_size0 overlap : Z) :
  overlap >= chunk_size0 ->
  (forall e : exn,
     chunk_document fuel uuid4 document_name0 content0 chunk_size0 overlap
     <> Raise e)
  /\ (content0 = "" ->
      chunk_document (S fuel) uuid4 document_name0 content0 chunk_size0 overlap
      = Ok [])
  /\ (content0 <> "" -> len content0 <= chunk_size0 ->
      chunk_document (S fuel) uuid4 document_name0 content0 chunk_size0 overlap
      = Ok [whole_chunk uuid4 document_name0 content0]).
Proof.
  intros _. split; [|split].
  - intros e. apply chunk_loop_no_raise.
  - intros ->. reflexivity.
  - intros Hne Hfit. apply chunk_document_single_chunk_aux; assumption.
Qed.

(** The degenerate-configuration theorem at chunk_size 3, overlap 7. *)
Lemma chunk_document_degenerate_config_witness :
  7 >= 3
  /\ (forall e : exn, chunk_document 0 (fun _ => "u") "doc" "abc" 3 7 <> Raise e)
  /\ ("abc" = "" -> chunk_document 1 (fun _ => "u") "doc" "abc" 3 7 = Ok [])
  /\ ("abc" <> "" -> len "abc" <= 3 ->
      chunk_document 1 (fun _ => "u") "doc" "abc" 3 7
      = Ok [whole_chunk (fun _ => "u") "doc" "abc"]).
Proof.
  split; [lia|].
  apply (chunk_document_degenerate_config 0 (fun _ => "u") "doc" "abc" 3 7). lia.
Defined.

(** C1 fails as stated: a call with overlap 7 >= chunk_size 3 returns a
    chunk and raises nothing. *)
Lemma chunk_document_degenerate_config_counterexample :
  7 >= 3
  /\ chunk_document 1 (fun _ => "u") "doc" "abc" 3 7
     = Ok [whole_chunk (fun _ => "u") "doc" "abc"]
  /\ ~ (exists e : exn,
          chunk_document 1 (fun _ => "u") "doc" "abc" 3 7 = Raise e).
Proof.
  split; [lia|]. split; [reflexivity|].
  intros [e He]. vm_compute in He. discriminate He.
Qed.

(** ** The effect monad *)

Lemma bind_Ok_inv {A B : Type} (m : M A) (k : A -> M B) (st st' : state) (b : B) :
  bind m k st = (Ok b, st') ->
  exists (a : A) (st1 : state), m st = (Ok a, st1) /\ k a st1 = (Ok b, st').
Proof.
  unfold bind. destruct (m st) as [[a|e|] st1]; try discriminate.
  intros H. exists a, st1. split; [reflexivity | exact H].
Qed.

Lemma bind_Ok {A B : Type} (m : M A) (k : A -> M B) (st st1 : state) (a : A) :
  m st = (Ok a, st1) -> bind m k st = k a st1.
Proof. unfold bind. intros ->. reflexivity. Qed.

Lemma bind_Raise {A B : Type} (m : M A) (k : A -> M B) (st st1 : state) (e : exn) :
  m st = (Raise e, st1) -> bind m k st = (Raise e, st1).
Proof. unfold bind. intros ->. reflexivity. Qed.

(** Running a sequence of statements: [run_with H] executes the first one,
    whose run is given by [H]; [first_step H a s Ha] splits a successful run
    [H] into the run [Ha] of its first statement and the rest. *)
Ltac run_with H := rewrite (bind_Ok _ _ _ _ _ H).
Ltac first_step H a s Ha := apply bind_Ok_inv in H as (a & s & Ha & H).
Ltac clock_reading H := unfold time in H; injection H as <- <-.

(** ** The vector store client *)

Lemma health_check_run (w : World) (self : EndeeClient.client) (st : state) :
  EndeeClient.health_check w self st
  = (Ok (healthy_at w self (http_count st)),
     sent (EndeeClient.health_request self) st).
Proof.
  unfold EndeeClient.health_check, try_except, bind, request, healthy_at.
  destruct (session_request w (http_count st) (EndeeClient.health_request self));
    reflexivity.
Qed.

(** C9. health_check is total: whatever the HTTP request does, including
    raising any exception (also one outside [Exception]), health_check
    returns a boolean and raises nothing; it returns true exactly when the
    server answered with status 200, and false on every failure. *)
Theorem health_check_total (w : World) (self : EndeeClient.client) (st : state) :
  (exists b : bool, fst (EndeeClient.health_check w self st) = Ok b)
  /\ (fst (EndeeClient.health_check w self st) = Ok true
      <-> exists response : http_response,
            session_request w (http_count st) (EndeeClient.health_request self)
            = Answer response
            /\ status_code response = 200)
  /\ (forall e : exn,
        session_request w (http_count st) (EndeeClient.health_request self)
        = Failure e ->
        fst (EndeeClient.health_check w self st) = Ok false)
  /\ (forall response : http_response,
        session_request w (http_count st) (EndeeClient.health_request self)
        = Answer response ->
        status_code response <> 200 ->
        fst (EndeeClient.health_check w self st) = Ok false).
Proof.
  rewrite health_check_run. cbn [fst]. unfold healthy_at.
  split; [eexists; reflexivity|].
  destruct (session_request w (http_count st) (EndeeClient.health_request self))
    as [response|e].
  - split; [|split].
    + split.
      * intros [= H]. exists response. split; [reflexivity|].
        apply Z.eqb_eq. exact H.
      * intros (r & [= <-] & H). rewrite H. reflexivity.
    + intros e [=].
    + intros r [= <-] Hne. f_equal. apply Z.eqb_neq. exact Hne.
  - split; [|split].
    + split; [discriminate|]. intros (r & [=] & _).
    + reflexivity.
    + intros r [=].
Qed.

Lemma make_request_run (w : World) (self : EndeeClient.client)
    (method endpoint : string) (data : option pyval) (st : state) :
  EndeeClient._make_request w self method endpoint data st
  = (match session_request w (http_count st)
             (EndeeClient.api_request self method endpoint data) with
     | Answer response =>
         if (400 <=? status_code response) && (status_code response <? 600)
         then Raise (HTTPError (status_code response))
         else if negb (String.eqb (text response) "")
              then match body response with
                   | Some d => Ok d
                   | None => Raise (RequestException "JSONDecodeError")
                   end
              else Ok []
     | Failure e => Raise e
     end,
     sent (EndeeClient.api_request self method endpoint data) st).
Proof.
  unfold EndeeClient._make_request, try_except, bind, request.
  destruct (session_request w (http_count st) _) as [response|e]; cbn [of_answer].
  - unfold EndeeClient.raise_for_status.
    destruct ((400 <=? status_code response) && (status_code response <? 600));
      cbn; [reflexivity|].
    destruct (negb (String.eqb (text response) "")); cbn; [|reflexivity].
    unfold EndeeClient.response_json. destruct (body response); reflexivity.
  - destruct e; reflexivity.
Qed.

Lemma make_request_accepted (w : World) (self : EndeeClient.client)
    (method endpoint : string) (data : option pyval) (st : state)
    (response : http_response) :
  session_request w (http_count st) (EndeeClient.api_request self method endpoint data)
  = Answer response ->
  accepted response ->
  exists d : dict,
    EndeeClient._make_request w self method endpoint data st
    = (Ok d, sent (EndeeClient.api_request self method endpoint data) st)
    /\ (d = [] \/ body response = Some d).
Proof.
  intros Hans [Hstatus Hbody]. rewrite make_request_run, Hans.
  replace ((400 <=? status_code response) && (status_code response <? 600))
    with false by (symmetry; apply andb_false_iff; lia).
  destruct (String.eqb_spec (text response) "") as [Hempty|Hfull]; cbn [negb].
  - exists []. split; [reflexivity | left; reflexivity].
  - destruct Hbody as [Hempty|Hjson]; [contradiction|].
    destruct (body response) as [d|]; [|contradiction].
    exists d. split; [reflexivity | right; reflexivity].
Qed.

(** ** Start-up *)

Section Initialize.

Variable w : World.
Variable self : RAGService.service.


Lemma after_no_failed_poll (st : state) :
  after_failed_polls (RAGService.endee_client self) 0 st = st.
Proof.
  destruct st. unfold after_failed_polls, failed_polls. cbn.
  rewrite Nat.add_0_r, app_nil_r. reflexivity.
Qed.

Lemma after_failed_polls_step (n : nat) (st : state) :
  after_failed_polls (RAGService.endee_client self) n
    (emit (Sleep 1)
       (sent (EndeeClient.health_request (RAGService.endee_client self)) st))
  = after_failed_polls (RAGService.endee_client self) (S n) st.
Proof.
  unfold after_failed_polls, failed_polls, emit, sent. cbn.
  rewrite <- !app_assoc. cbn. f_equal. lia.
Qed.


Lemma wait_first_healthy (attempts : nat) :
  forall (st : state) (k : nat),
    (k < attempts)%nat ->
    (forall j : nat, (j < k)%nat ->
       healthy_at w (RAGService.endee_client self) (http_count st + j) = false) ->
    healthy_at w (RAGService.endee_client self) (http_count st + k) = true ->
    RAGService.wait_for_endee w self attempts st
    = (Ok tt,
       sent (EndeeClient.health_request (RAGService.endee_client self))
         (after_failed_polls (RAGService.endee_client self) k st)).
Proof.
  induction attempts as [|attempts IH]; intros st k Hk Hbefore Hnow; [lia|].
  cbn [RAGService.wait_for_endee].
  rewrite (bind_Ok _ _ _ _ _ (health_check_run w _ st)).
  destruct k as [|k].
  - rewrite Nat.add_0_r in Hnow. rewrite Hnow, after_no_failed_poll. reflexivity.
  - rewrite <- (Nat.add_0_r (http_count st)), Hbefore by lia.
    unfold bind at 1, sleep. rewrite (IH _ k).
    + rewrite after_failed_polls_step. reflexivity.
    + lia.
    + intros j Hj. cbn. rewrite <- Nat.add_succ_r. apply Hbefore. lia.
    + cbn. rewrite <- Nat.add_succ_r. exact Hnow.
Qed.

End Initialize.


Lemma create_index_state (w : World) (self : EndeeClient.client)
    (name : string) (dimension0 : Z) (metric : string) (st : state) :
  snd (EndeeClient.create_index w self name dimension0 metric st)
  = sent (EndeeClient.api_request self "POST" "/api/v1/index/create"
            (Some (EndeeClient.create_index_data name dimension0 metric))) st.
Proof.
  unfold EndeeClient.create_index, try_except, bind.
  rewrite make_request_run.
  destruct (session_request w (http_count st) _) as [response|e].
  - destruct ((400 <=? status_code response) && (status_code response <? 600)).
    + cbn. destruct (status_code response =? 409); reflexivity.
    + destruct (negb (String.eqb (text response) "")); [|reflexivity].
      destruct (body response); reflexivity.
  - destruct e as [?|?|?|?|?|status|?|? ?|?| |]; cbn; try reflexivity.
    destruct (status =? 409); reflexivity.
Qed.



(** ** Ingestion *)

(** The keyword the test suite passes, [overlap], binds and runs the
    chunker. *)
Lemma call_chunk_document_overlap (fuel : nat) (uuid4 : nat -> string)
    (document_name0 content0 : string) (chunk_size0 overlap : Z) :
  call_chunk_document fuel uuid4
    [ ("document_name", PStr document_name0); ("content", PStr content0);
      ("chunk_size", PInt chunk_size0); ("overlap", PInt overlap) ]
  = chunk_document fuel uuid4 document_name0 content0 chunk_size0 overlap.
Proof.
  unfold call_chunk_document. cbn.
  destruct (chunk_document fuel uuid4 document_name0 content0 chunk_size0 overlap);
    reflexivity.
Qed.

(** The keyword [ingest_document] passes, [chunk_overlap], is not a
    parameter of [chunk_document]. *)
Lemma ingest_document_raises (w : World) (settings : Config.Settings) (fuel : nat)
    (self : RAGService.service) (document_name0 content0 : string)
    (source_url : option string) (st : state) :
  RAGService.ingest_document w settings fuel self document_name0 content0 source_url st
  = (Raise (TypeError
       "chunk_document() got an unexpected keyword argument 'chunk_overlap'"),
     st).
Proof. reflexivity. Qed.

(** C4. Every call of ingest_document raises TypeError while binding the
    arguments of chunk_document, in the state it started from: no call is
    successful and none returns chunks_added or total_content_length. *)
Theorem ingest_document_never_succeeds (w : World) (settings : Config.Settings)
    (fuel : nat) (self : RAGService.service) (document_name0 content0 : string)
    (source_url : option string) (st : state) :
  RAGService.ingest_document w settings fuel self document_name0 content0 source_url st
  = (Raise (TypeError
       "chunk_document() got an unexpected keyword argument 'chunk_overlap'"),
     st)
  /\ forall (result : RAGService.ingestion_result) (st' : state),
       RAGService.ingest_document w settings fuel self document_name0 content0
         source_url st
       <> (Ok result, st').
Proof.
  split; [apply ingest_document_raises|].
  intros result st'. rewrite ingest_document_raises. discriminate.
Qed.

(** What the rest of the body of ingest_document reports once it has the
    chunks: with one embedding per chunk and an accepted insertion,
    chunks_added is the number of chunks and total_content_length the
    length of the content. *)
Lemma ingest_chunks_count (w : World) (self : RAGService.service)
    (document_name0 content0 : string) (source_url : option string)
    (chunks : list chunk) (st : state)
    (embeddings : list embedding) (response : http_response) :
  model_encode_batch w (map EmbeddingService.content chunks) = Answer embeddings ->
  List.length embeddings = List.length chunks ->
  (forall req : http_request,
     session_request w (http_count st) req = Answer response) ->
  accepted response ->
  exists (result : RAGService.ingestion_result) (st' : state),
    RAGService.ingest_chunks w self document_name0 content0 source_url chunks st
    = (Ok result, st')
    /\ RAGService.chunks_added result = Z.of_nat (List.length chunks)
    /\ RAGService.total_content_length result = len content0
    /\ RAGService.ingested_document_name result = document_name0.
Proof.
  intros Henc Hlen Hans Hacc.
  unfold RAGService.ingest_chunks, EmbeddingService.embed_texts, encode_batch.
  unfold bind at 1. rewrite Henc. cbn [of_answer].
  unfold EndeeClient.insert. unfold bind at 1. unfold bind at 1.
  match goal with
  | |- context [EndeeClient._make_request w ?c ?m ?e ?d ?s] =>
      destruct (make_request_accepted w c m e d s response (Hans _) Hacc)
        as (d0 & -> & _)
  end.
  cbn [ret]. eexists. eexists. split; [reflexivity|].
  cbn. rewrite length_map, length_combine, Hlen, Nat.min_id. auto.
Qed.

(** C3. For a content of exactly 1000 characters, chunk_size = 512 and
    overlap = 50 (the defaults of the settings), chunk_document returns
    exactly 3 chunks with start positions 0, 462 and 924, spans [0, 512),
    [462, 974) and [924, 1000).  ingest_document for the same content does
    not return chunks_added = 3: it raises TypeError before the chunker
    runs. *)
Theorem thousand_characters_example (w : World) (fuel : nat) (uuid4 : nat -> string)
    (self : RAGService.service) (content0 : string) (source_url : option string)
    (st : state) :
  String.length content0 = 1000%nat ->
  (exists chunks : list chunk,
     chunk_document (3 + fuel) uuid4 "doc1" content0
       (Config.chunk_size Config.default_settings)
       (Config.chunk_overlap Config.default_settings)
     = Ok chunks
     /\ List.length chunks = 3%nat
     /\ map (fun c => start_pos (metadata c)) chunks = [0; 462; 924]
     /\ map span chunks = [(0, 512); (462, 974); (924, 1000)])
  /\ RAGService.ingest_document w Config.default_settings (3 + fuel) self
       "doc1" content0 source_url st
     = (Raise (TypeError
          "chunk_document() got an unexpected keyword argument 'chunk_overlap'"),
        st).
Proof.
  intros Hlen. split; [|apply ingest_document_raises].
  assert (HL : len content0 = 1000) by (unfold len; rewrite Hlen; reflexivity).
  pose proof (chunk_document_spans (3 + fuel) uuid4 "doc1" content0 512 50) as Hspans.
  change (Config.chunk_size Config.default_settings) with 512.
  change (Config.chunk_overlap Config.default_settings) with 50.
  remember (chunk_document (3 + fuel) uuid4 "doc1" content0 512 50) as run eqn:Hrun.
  clear Hrun. rewrite HL in Hspans. cbn in Hspans.
  destruct run as [chunks| |]; cbn in Hspans; try discriminate.
  injection Hspans as Hspans.
  exists chunks. split; [reflexivity|].
  split; [|split; [|exact Hspans]].
  - rewrite <- (length_map span), Hspans. reflexivity.
  - change (fun c => start_pos (metadata c)) with (fun c => fst (span c)).
    rewrite <- (map_map span fst), Hspans. reflexivity.
Qed.

(** The example at a concrete content of 1000 characters. *)
Lemma thousand_characters_example_witness :
  (exists chunks : list chunk,
     chunk_document 3 (uuid4 (Examples.world 0)) "doc1" Examples.thousand_chars 512 50
     = Ok chunks
     /\ List.length chunks = 3%nat
     /\ map (fun c => start_pos (metadata c)) chunks = [0; 462; 924]
     /\ map span chunks = [(0, 512); (462, 974); (924, 1000)])
  /\ RAGService.ingest_document (Examples.world 0) Config.default_settings 3
       Examples.plain_service "doc1" Examples.thousand_chars None initial_state
     = (Raise (TypeError
          "chunk_document() got an unexpected keyword argument 'chunk_overlap'"),
        initial_state).
Proof.
  apply (thousand_characters_example (Examples.world 0) 0
           (uuid4 (Examples.world 0)) Examples.plain_service
           Examples.thousand_chars None initial_state).
  vm_compute. reflexivity.
Defined.

(** ** Validation of the caller's input *)






(** ** Retrieval *)

Lemma endee_search_state (w : World) (self : EndeeClient.client) (index_name0 : string)
    (query_vector : embedding) (k : Z) (filter_ : option dict) (st : state) :
  snd (EndeeClient.search w self index_name0 query_vector k filter_ st)
  = sent (EndeeClient.api_request self "POST"
            ("/api/v1/index/" ++ index_name0 ++ "/search")
            (Some (EndeeClient.search_data query_vector k filter_))) st.
Proof.
  unfold EndeeClient.search, bind. rewrite make_request_run.
  destruct (session_request w (http_count st) _) as [response|e]; [|reflexivity].
  destruct ((400 <=? status_code response) && (status_code response <? 600));
    [reflexivity|].
  destruct (negb (String.eqb (text response) "")); [|reflexivity].
  destruct (body response); reflexivity.
Qed.

Lemma endee_search_run (w : World) (self : RAGService.service)
    (query_vector : embedding) (k : Z) (st : state) (response : http_response) :
  session_request w (http_count st) (search_request self query_vector k)
  = Answer response ->
  accepted response ->
  EndeeClient.search w (RAGService.endee_client self) (RAGService.index_name self)
    query_vector k None st
  = (Ok (results_of response), sent (search_request self query_vector k) st).
Proof.
  intros Hans [Hstatus Hbody].
  unfold EndeeClient.search, bind. rewrite make_request_run.
  fold (search_request self query_vector k). rewrite Hans.
  replace ((400 <=? status_code response) && (status_code response <? 600))
    with false by (symmetry; apply andb_false_iff; lia).
  unfold results_of, ret.
  destruct (String.eqb_spec (text response) "") as [Hempty|Hfull]; cbn [negb].
  - reflexivity.
  - destruct Hbody as [Hempty|Hjson]; [contradiction|].
    destruct (body response) as [d|]; [reflexivity | contradiction].
Qed.

Lemma context_loop_state (w : World) (items : list pyval) :
  forall (i : Z) (context_parts : list string) (st : state),
    snd (RAGService.context_loop w items i context_parts st) = st.
Proof.
  induction items as [|result rest IH]; intros i context_parts st;
    cbn [RAGService.context_loop]; [reflexivity|].
  unfold bind at 1, lift at 1.
  destruct (py_get result "metadata" (PDict [])) as [md| |]; try reflexivity.
  unfold bind at 1, lift at 1.
  destruct (py_get md "content" (PStr "")) as [content0| |]; try reflexivity.
  destruct (truthy content0); [|apply IH].
  unfold bind at 1, lift at 1.
  destruct (py_slice_prefix 300 content0) as [preview| |]; try reflexivity.
  apply IH.
Qed.

Lemma generate_answer_clock (w : World) (settings : Config.Settings)
    (self : RAGService.service) (query0 : string) (results0 : pyval) (st : state) :
  clock_count (snd (RAGService._generate_answer w settings self query0 results0 st))
  = clock_count st.
Proof.
  unfold RAGService._generate_answer.
  destruct (RAGService.openai_client self); [|reflexivity].
  unfold bind at 1, lift at 1.
  destruct (py_slice_prefix 3 results0) as [top| |]; try reflexivity.
  unfold bind at 1, lift at 1.
  destruct (py_iter top) as [items| |]; try reflexivity.
  unfold bind at 1.
  pose proof (context_loop_state w items 1 [] st) as Hst.
  destruct (RAGService.context_loop w items 1 [] st) as [[parts|e|] st1];
    cbn [snd] in Hst; subst st1; try reflexivity.
  unfold try_except, bind at 1, chat.
  destruct (chat_completions_create w (chat_count st) _) as [response|e];
    cbn [of_answer].
  - unfold bind at 1, lift at 1. destruct response; reflexivity.
  - unfold except_Exception. destruct (is_Exception e); reflexivity.
Qed.

Lemma generate_answer_events (w : World) (settings : Config.Settings)
    (self : RAGService.service) (query0 : string) (results0 : pyval) (st : state) :
  exists events : list event,
    log (snd (RAGService._generate_answer w settings self query0 results0 st))
    = (log st ++ events)%list
    /\ only_chat events.
Proof.
  assert (Hsame : forall st0 : state,
            exists events : list event,
              log st0 = (log st0 ++ events)%list /\ only_chat events).
  { intros st0. exists []. split; [now rewrite app_nil_r | constructor]. }
  unfold RAGService._generate_answer.
  destruct (RAGService.openai_client self); [|apply Hsame].
  unfold bind at 1, lift at 1.
  destruct (py_slice_prefix 3 results0) as [top| |]; try apply Hsame.
  unfold bind at 1, lift at 1.
  destruct (py_iter top) as [items| |]; try apply Hsame.
  unfold bind at 1.
  pose proof (context_loop_state w items 1 [] st) as Hst.
  destruct (RAGService.context_loop w items 1 [] st) as [[parts|e|] st1];
    cbn [snd] in Hst; subst st1; try apply Hsame.
  unfold try_except, bind at 1, chat.
  match goal with
  | |- context [chatted ?req st] =>
      assert (Hchat : exists events : list event,
                log (chatted req st) = (log st ++ events)%list /\ only_chat events)
        by (exists [Chat req]; split;
            [reflexivity | constructor; [eexists; reflexivity | constructor]])
  end.
  destruct (chat_completions_create w (chat_count st) _) as [response|e];
    cbn [of_answer].
  - unfold bind at 1, lift at 1. destruct response; exact Hchat.
  - unfold except_Exception. destruct (is_Exception e); exact Hchat.
Qed.

(** C6 (as the code has it). For every response returned by search the
    clock is read four times, in this order: before the query is embedded,
    immediately before the store search, immediately after it, and after
    the optional answer generation (during which the clock is not read and
    the store is not called).  retrieval_time_ms is the difference of the
    second and third readings times 1000, so it measures the store search
    only; total_time_ms is the difference of the first and last readings
    times 1000.  Hence retrieval_time_ms is at most total_time_ms whenever
    the successive readings of time.time() do not decrease (float rounding
    taken as monotone). *)
Theorem search_timing_intervals (w : World) (settings : Config.Settings)
    (self : RAGService.service) (query0 : string) (top_k : option Z)
    (use_llm : bool) (st st' : state) (response : RAGService.search_result) :
  RAGService.search w settings self query0 top_k use_llm st = (Ok response, st') ->
  exists (query_vector : embedding) (answer_events : list event),
    model_encode w query0 = Answer query_vector
    /\ log st'
       = (log st
          ++ [ClockRead; Encode [query0]; ClockRead;
              Http (search_request self query_vector
                      (RAGService.resolve_top_k settings top_k));
              ClockRead]
          ++ answer_events ++ [ClockRead])%list
    /\ only_chat answer_events
    /\ RAGService.retrieval_time_ms response
       = fmul w (fsub w (time_time w (S (S (clock_count st))))
                        (time_time w (S (clock_count st)))) 1000
    /\ RAGService.total_time_ms response
       = fmul w (fsub w (time_time w (S (S (S (clock_count st)))))
                        (time_time w (clock_count st))) 1000
    /\ ((forall m n : nat, (m <= n)%nat -> (time_time w m <= time_time w n)%Q) ->
        (forall a b : Q, (a <= b)%Q -> (float_round w a <= float_round w b)%Q) ->
        (RAGService.retrieval_time_ms response
         <= RAGService.total_time_ms response)%Q).
Proof.
  intros Hrun. unfold RAGService.search in Hrun.
  first_step Hrun t0 s1 Ht0. clock_reading Ht0.
  first_step Hrun qe s2 Hqe.
  unfold EmbeddingService.embed_text, encode in Hqe. injection Hqe as Hqe <-.
  first_step Hrun t1 s3 Ht1. clock_reading Ht1.
  first_step Hrun results0 s4 Hsearch.
  apply (f_equal snd) in Hsearch. rewrite endee_search_state in Hsearch.
  cbn [snd] in Hsearch. subst s4.
  first_step Hrun t2 s5 Ht2. clock_reading Ht2.
  first_step Hrun answer0 s6 Hanswer.
  first_step Hrun t3 s7 Ht3. clock_reading Ht3.
  first_step Hrun count s8 Hcount.
  unfold lift in Hcount. injection Hcount as _ <-.
  unfold ret in Hrun. injection Hrun as <- <-.
  cbn [RAGService.retrieval_time_ms RAGService.total_time_ms].
  match type of Hanswer with
  | _ ?s = _ => set (retrieved := s) in *
  end.
  assert (Hs6 : clock_count s6 = S (S (S (clock_count st)))
                /\ exists events : list event,
                     log s6 = (log retrieved ++ events)%list /\ only_chat events).
  { destruct (use_llm && truthy results0
              && match RAGService.openai_client self with
                 | Some _ => true
                 | None => false
                 end).
    - first_step Hanswer a s Hgen. rename Hanswer into Hret.
      unfold ret in Hret. injection Hret as _ <-.
      pose proof (generate_answer_clock w settings self query0 results0 retrieved)
        as Hclock.
      pose proof (generate_answer_events w settings self query0 results0 retrieved)
        as Hevents.
      rewrite Hgen in Hclock, Hevents. cbn [snd] in Hclock, Hevents.
      split; [rewrite Hclock; reflexivity | exact Hevents].
    - unfold ret in Hanswer. injection Hanswer as _ <-.
      split; [reflexivity|]. exists []. split; [now rewrite app_nil_r | constructor]. }
  destruct Hs6 as [Hcount6 (events & Hlog6 & Honly)].
  destruct (model_encode w query0) as [query_vector|e] eqn:Hencode;
    cbn [of_answer] in Hqe; [|discriminate Hqe].
  injection Hqe as ->.
  exists qe, events. split; [reflexivity|].
  rewrite Hcount6. cbn [clock_count sent emit clock_read].
  split; [|split; [exact Honly | split; [reflexivity | split; [reflexivity|]]]].
  - cbn [log clock_read]. rewrite Hlog6. subst retrieved.
    cbn [log clock_read sent emit]. unfold search_request.
    repeat rewrite <- app_assoc. reflexivity.
  - intros Hclock Hround.
    set (cc := clock_count st).
    pose proof (Hclock cc (S cc) ltac:(lia)) as H01.
    pose proof (Hclock (S (S cc)) (S (S (S cc))) ltac:(lia)) as H23.
    unfold fmul, fsub. apply Hround.
    apply Qmult_le_compat_r; [|discriminate].
    apply Hround. lra.
Qed.

(** The timing of a search on a world whose clock advances one second per
    reading: the store search takes one second out of three. *)
Lemma search_timing_intervals_witness :
  exists (response : RAGService.search_result) (st' : state),
    RAGService.search (Examples.world 0) Config.default_settings
      Examples.plain_service "test query" (Some 2) false initial_state
    = (Ok response, st')
    /\ log st'
       = [ClockRead; Encode ["test query"]; ClockRead;
          Http (search_request Examples.plain_service [1 # 2; 1 # 3] 2);
          ClockRead; ClockRead]
    /\ (RAGService.retrieval_time_ms response == 1000)%Q
    /\ (RAGService.total_time_ms response == 3000)%Q
    /\ (RAGService.retrieval_time_ms response
        <= RAGService.total_time_ms response)%Q.
Proof.
  destruct (search_timing_intervals (Examples.world 0) Config.default_settings
              Examples.plain_service "test query" (Some 2) false initial_state
              _ _ eq_refl)
    as (query_vector & answer_events & Hencode & Hlog & Honly & Hretrieval
        & Htotal & Horder).
  eexists. eexists. split; [vm_compute; reflexivity|].
  split; [vm_compute; reflexivity|].
  split; [vm_compute; reflexivity|].
  split; [vm_compute; reflexivity|].
  apply Horder.
  - intros m n Hmn. cbn [Examples.world time_time].
    rewrite <- Zle_Qle. lia.
  - intros a b Hab. exact Hab.
Defined.

(** C6 fails as stated: on a wall clock that is set back after the first
    reading (5, 1, 2, 3) the search returns a response with
    retrieval_time_ms = 1000 and total_time_ms = -2000. *)
Lemma search_timing_counterexample :
  exists (response : RAGService.search_result) (st' : state),
    RAGService.search Scenarios.clock_set_back Config.default_settings
      Examples.plain_service "test query" (Some 2) false initial_state
    = (Ok response, st')
    /\ ~ (RAGService.retrieval_time_ms response
          <= RAGService.total_time_ms response)%Q.
Proof.
  eexists. eexists. split; [vm_compute; reflexivity|].
  vm_compute. intros H. apply H. reflexivity.
Qed.

Lemma time_run (w : World) (st : state) :
  time w st = (Ok (time_time w (clock_count st)), clock_read st).
Proof. reflexivity. Qed.

Lemma embed_text_run (w : World) (self : EmbeddingService.service)
    (text0 : string) (vector0 : embedding) (st : state) :
  model_encode w text0 = Answer vector0 ->
  EmbeddingService.embed_text w self text0 st = (Ok vector0, emit (Encode [text0]) st).
Proof.
  intros H. unfold EmbeddingService.embed_text, encode. rewrite H. reflexivity.
Qed.

Lemma context_loop_text (w : World) (items : list pyval) :
  forallb text_result items = true ->
  forall (i : Z) (context_parts : list string) (st : state),
    exists parts : list string,
      RAGService.context_loop w items i context_parts st = (Ok parts, st).
Proof.
  induction items as [|result rest IH]; intros Htext i context_parts st.
  - exists context_parts. reflexivity.
  - cbn [forallb] in Htext. apply andb_true_iff in Htext as [Hresult Hrest].
    cbn [RAGService.context_loop].
    destruct result as [| | | | |l|kv]; try discriminate Hresult.
    cbn [text_result] in Hresult. unfold bind at 1, lift at 1. cbn [py_get].
    destruct (dict_get kv "metadata" (PDict [])) as [| | | | |l|md];
      try discriminate Hresult.
    unfold bind at 1, lift at 1. cbn [py_get].
    destruct (dict_get md "content" (PStr "")) as [|b|z|q|s|l|kv'];
      try (apply negb_true_iff in Hresult; rewrite Hresult; apply (IH Hrest)).
    destruct (truthy (PStr s)); [|apply (IH Hrest)].
    unfold bind at 1, lift at 1. cbn [py_slice_prefix]. apply (IH Hrest).
Qed.

(** When the chat completion raises an exception derived from Exception,
    _generate_answer returns its sentinel. *)
Lemma generate_answer_sentinel (w : World) (settings : Config.Settings)
    (self : RAGService.service) (query0 : string) (items : list pyval)
    (st : state) (client0 : RAGService.OpenAI) (e : exn) :
  RAGService.openai_client self = Some client0 ->
  forallb text_result (firstn 3 items) = true ->
  (forall req : chat_request,
     chat_completions_create w (chat_count st) req = Failure e) ->
  is_Exception e = true ->
  exists st' : state,
    RAGService._generate_answer w settings self query0 (PList items) st
    = (Ok "Error generating answer", st').
Proof.
  intros Hclient Htext Hchat Hexn.
  unfold RAGService._generate_answer. rewrite Hclient.
  unfold bind at 1, lift at 1. cbn [py_slice_prefix].
  unfold bind at 1, lift at 1. cbn [py_iter].
  destruct (context_loop_text w (firstn 3 items) Htext 1 [] st) as (parts & Hparts).
  run_with Hparts.
  unfold try_except, bind at 1, chat. rewrite Hchat. cbn [of_answer].
  unfold except_Exception. rewrite Hexn. eexists. reflexivity.
Qed.

(** C5 fails as stated: with use_llm = true and no Answerer configured the
    search returns a response whose generated_answer is None, not a
    sentinel. *)
Lemma search_llm_degradation_counterexample :
  RAGService.openai_client Examples.plain_service = None
  /\ exists (response : RAGService.search_result) (st' : state),
       RAGService.search (Examples.world 0) Config.default_settings
         Examples.plain_service "test query" (Some 2) true initial_state
       = (Ok response, st')
       /\ RAGService.generated_answer response = None.
Proof.
  split; [reflexivity|]. eexists. eexists. split; vm_compute; reflexivity.
Qed.

(** C5 (as the code has it). Take a search with use_llm = true whose
    retrieval succeeds: the query is embedded and the store accepts the
    search and returns a list of results.
    - If no Answerer is configured, or the list is empty, search returns a
      complete response without raising and generated_answer is None: the
      Answerer is not called and no sentinel is produced.
    - If an Answerer is configured, the list is not empty, the content of
      the top 3 results is text, and the Answerer raises an exception
      derived from Exception, search still returns a complete response
      without raising and generated_answer is the sentinel
      Error generating answer. *)
Theorem search_llm_degradation (w : World) (settings : Config.Settings)
    (self : RAGService.service) (query0 : string) (top_k : option Z) (st : state)
    (query_vector : embedding) (answer0 : http_response) (items : list pyval) :
  model_encode w query0 = Answer query_vector ->
  session_request w (http_count st)
    (search_request self query_vector (RAGService.resolve_top_k settings top_k))
  = Answer answer0 ->
  accepted answer0 ->
  results_of answer0 = PList items ->
  ((RAGService.openai_client self = None \/ items = []) ->
   exists (response : RAGService.search_result) (st' : state),
     RAGService.search w settings self query0 top_k true st = (Ok response, st')
     /\ RAGService.generated_answer response = None
     /\ RAGService.results response = PList items
     /\ RAGService.result_count response = Z.of_nat (List.length items))
  /\ (forall (client0 : RAGService.OpenAI) (e : exn),
        RAGService.openai_client self = Some client0 ->
        items <> [] ->
        forallb text_result (firstn 3 items) = true ->
        (forall req : chat_request,
           chat_completions_create w (chat_count st) req = Failure e) ->
        is_Exception e = true ->
        exists (response : RAGService.search_result) (st' : state),
          RAGService.search w settings self query0 top_k true st = (Ok response, st')
          /\ RAGService.generated_answer response = Some "Error generating answer"
          /\ RAGService.results response = PList items
          /\ RAGService.result_count response = Z.of_nat (List.length items)).
Proof.
  intros Hembed Hstore Haccepted Hresults.
  assert (Hsearch :
    RAGService.search w settings self query0 top_k true st
    = bind
        (if truthy (PList items)
            && match RAGService.openai_client self with
               | Some _ => true
               | None => false
               end
         then bind (RAGService._generate_answer w settings self query0 (PList items))
                   (fun a => ret (Some a))
         else ret None)
        (fun generated =>
           bind (time w) (fun t_end =>
             ret {| RAGService.query := query0;
                    RAGService.results := PList items;
                    RAGService.generated_answer := generated;
                    RAGService.retrieval_time_ms :=
                      fmul w (fsub w (time_time w (S (S (clock_count st))))
                                     (time_time w (S (clock_count st)))) 1000;
                    RAGService.total_time_ms :=
                      fmul w (fsub w t_end (time_time w (clock_count st))) 1000;
                    RAGService.result_count := Z.of_nat (List.length items) |}))
        (clock_read
           (sent (search_request self query_vector
                    (RAGService.resolve_top_k settings top_k))
              (clock_read (emit (Encode [query0]) (clock_read st)))))).
  { unfold RAGService.search.
    run_with (time_run w st). cbv zeta.
    run_with (embed_text_run w (RAGService.embedding_service self) query0
                query_vector (clock_read st) Hembed).
    run_with (time_run w (emit (Encode [query0]) (clock_read st))).
    run_with (endee_search_run w self query_vector
                (RAGService.resolve_top_k settings top_k)
                (clock_read (emit (Encode [query0]) (clock_read st)))
                answer0 Hstore Haccepted).
    match goal with |- bind (time w) _ ?s = _ => run_with (time_run w s) end.
    rewrite Hresults. cbn [andb].
    unfold bind.
    match goal with
    | |- (let (o, st') := ?run in _) = _ =>
        destruct run as [[generated|e|] st5]
    end; reflexivity. }
  split.
  - intros Hnone. rewrite Hsearch.
    assert (Hcond :
      truthy (PList items)
      && match RAGService.openai_client self with
         | Some _ => true
         | None => false
         end = false).
    { destruct Hnone as [-> | ->]; [apply andb_false_r | reflexivity]. }
    rewrite Hcond. eexists. eexists. split; [reflexivity|]. cbn. auto.
  - intros client0 e Hclient Hitems Htext Hchat Hexn. rewrite Hsearch.
    rewrite Hclient.
    replace (truthy (PList items)) with true
      by (destruct items; [contradiction | reflexivity]).
    cbn [andb].
    destruct (generate_answer_sentinel w settings self query0 items
                (clock_read
                   (sent (search_request self query_vector
                            (RAGService.resolve_top_k settings top_k))
                      (clock_read (emit (Encode [query0]) (clock_read st)))))
                client0 e Hclient Htext Hchat Hexn) as (st5 & Hgen).
    run_with (bind_Ok _ (fun a => ret (Some a)) _ _ _ Hgen).
    eexists. eexists. split; [reflexivity|]. cbn. auto.
Qed.

(** Degradation on a store that returns two text results:
    without an LLM client the answer is None; with one whose endpoint fails
    the answer is the sentinel. *)
Lemma search_llm_degradation_witness :
  (exists (response : RAGService.search_result) (st' : state),
     RAGService.search (Examples.world 0) Config.default_settings
       Examples.plain_service "test query" (Some 2) true initial_state
     = (Ok response, st')
     /\ RAGService.generated_answer response = None
     /\ RAGService.results response = Examples.sample_results
     /\ RAGService.result_count response = 2)
  /\ (exists (response : RAGService.search_result) (st' : state),
        RAGService.search (Examples.world 0) Examples.settings_with_llm
          Examples.llm_service "test query" (Some 2) true initial_state
        = (Ok response, st')
        /\ RAGService.generated_answer response = Some "Error generating answer"
        /\ RAGService.results response = Examples.sample_results
        /\ RAGService.result_count response = 2).
Proof.
  assert (Haccepted : accepted Examples.ok_response).
  { split; [left; cbn; lia | right; discriminate]. }
  split.
  - apply (search_llm_degradation (Examples.world 0) Config.default_settings
             Examples.plain_service "test query" (Some 2) initial_state
             [1 # 2; 1 # 3] Examples.ok_response
             match Examples.sample_results with PList l => l | _ => [] end
             eq_refl eq_refl Haccepted eq_refl).
    left. reflexivity.
  - apply (proj2
             (search_llm_degradation (Examples.world 0) Examples.settings_with_llm
                Examples.llm_service "test query" (Some 2) initial_state
                [1 # 2; 1 # 3] Examples.ok_response
                match Examples.sample_results with PList l => l | _ => [] end
                eq_refl eq_refl Haccepted eq_refl)
             {| RAGService.api_key := "sk-test" |}
             (OtherException "rate limited")).
    + reflexivity.
    + discriminate.
    + reflexivity.
    + intros req. reflexivity.
    + reflexivity.
Defined.


(** The health check on a store that refuses the connection. *)
Lemma health_check_total_witness :
  fst (EndeeClient.health_check (Examples.world 1)
         (RAGService.endee_client Examples.plain_service) initial_state)
  = Ok false.
Proof.
  apply (proj1 (proj2 (proj2
           (health_check_total (Examples.world 1)
              (RAGService.endee_client Examples.plain_service) initial_state)))
           (RequestException "connection refused")).
  reflexivity.
Defined.

(* ================================================================== *)
(** * Further properties of the sources *)

Import ChunkLayout.

(** ** Slices of strings *)

Lemma length_substring (s : string) :
  forall n m : nat,
    (n + m <= String.length s)%nat -> String.length (substring n m s) = m.
Proof.
  induction s as [|c s IH]; intros [|n] [|m] H; cbn in *; try lia.
  - rewrite IH; lia.
  - apply IH. lia.
  - apply IH. lia.
Qed.

Lemma substring_append (s : string) :
  forall n m p : nat,
    (n + m + p <= String.length s)%nat ->
    substring n m s ++ substring (n + m) p s = substring n (m + p) s.
Proof.
  induction s as [|c s IH]; intros [|n] [|m] p H; cbn in *; try lia.
  - destruct p; [reflexivity | lia].
  - reflexivity.
  - f_equal. apply (IH 0%nat m p). lia.
  - apply (IH n 0%nat p). lia.
  - apply (IH n (S m) p). lia.
Qed.

Lemma substring_substring (s : string) :
  forall n m k j : nat,
    (k + j <= m)%nat -> (n + m <= String.length s)%nat ->
    substring k j (substring n m s) = substring (n + k) j s.
Proof.
  induction s as [|c s IH]; intros [|n] [|m] k j Hk Hn; cbn in *; try lia.
  - assert (k = 0%nat) by lia. assert (j = 0%nat) by lia. subst. reflexivity.
  - assert (k = 0%nat) by lia. assert (j = 0%nat) by lia. subst. reflexivity.
  - destruct k as [|k].
    + destruct j as [|j]; [reflexivity|]. cbn. f_equal.
      apply (IH 0%nat m 0%nat j); lia.
    + cbn. apply (IH 0%nat m k j); lia.
  - apply (IH n 0%nat k j); lia.
  - apply (IH n (S m) k j); lia.
Qed.

Section Slices.

Variable s : string.

Lemma str_slice_in_range (a b : Z) :
  0 <= a <= b -> b <= len s ->
  str_slice s a b = substring (Z.to_nat a) (Z.to_nat (b - a)) s.
Proof.
  intros Ha Hb. unfold str_slice, slice_bound.
  destruct (Z.ltb_spec a 0) as [?|_]; [lia|].
  destruct (Z.ltb_spec b 0) as [?|_]; [lia|].
  rewrite !Z.min_l by lia. reflexivity.
Qed.

Lemma len_str_slice (a b : Z) :
  0 <= a <= b -> b <= len s -> len (str_slice s a b) = b - a.
Proof.
  intros Ha Hb. rewrite str_slice_in_range by assumption.
  unfold len in *. rewrite length_substring; lia.
Qed.

Lemma str_slice_app (a b c : Z) :
  0 <= a <= b -> b <= c -> c <= len s ->
  str_slice s a b ++ str_slice s b c = str_slice s a c.
Proof.
  intros Ha Hb Hc. rewrite !str_slice_in_range by lia.
  replace (Z.to_nat b) with (Z.to_nat a + Z.to_nat (b - a))%nat by lia.
  replace (Z.to_nat (c - a)) with (Z.to_nat (b - a) + Z.to_nat (c - b))%nat by lia.
  apply substring_append. unfold len in Hc. lia.
Qed.

(** Dropping the first [k] characters of a slice. *)
Lemma str_slice_drop (a b k : Z) :
  0 <= a -> 0 <= k -> a + k <= b -> b <= len s ->
  str_slice (str_slice s a b) k (len (str_slice s a b)) = str_slice s (a + k) b.
Proof.
  intros Ha Hk Hkb Hb.
  rewrite len_str_slice by lia.
  rewrite (str_slice_in_range (a + k) b) by lia.
  unfold str_slice at 1, slice_bound.
  rewrite len_str_slice by lia.
  destruct (Z.ltb_spec k 0) as [?|_]; [lia|].
  destruct (Z.ltb_spec (b - a) 0) as [?|_]; [lia|].
  rewrite Z.min_l by lia. rewrite Z.min_id.
  rewrite str_slice_in_range by lia.
  rewrite substring_substring by (unfold len in Hb; lia).
  f_equal; lia.
Qed.

End Slices.

(** ** The layout of the chunks *)

Section Layout.

Variables L chunk_size0 step : Z.

(** The spans follow the cursor: rank [k] starts [k] steps after the first. *)
Lemma span_loop_closed (fuel : nat) :
  forall (i : Z) (spans : list (Z * Z)),
    span_loop fuel L chunk_size0 step i = Ok spans ->
    spans
    = map (fun k : nat =>
             (i + Z.of_nat k * step, Z.min (i + Z.of_nat k * step + chunk_size0) L))
          (seq 0 (List.length spans)).
Proof.
  induction fuel as [|fuel IH]; intros i spans; cbn [span_loop]; [discriminate|].
  destruct (i <? L); [|intros [= <-]; reflexivity].
  destruct (_ >=? _).
  - intros [= <-]. cbn. rewrite Z.add_0_r. reflexivity.
  - destruct (span_loop fuel L chunk_size0 step (i + step)) as [rest| |] eqn:Hrest;
      cbn [outcome_map]; try discriminate.
    intros [= <-]. cbn [List.length seq map]. f_equal.
    + cbn. rewrite Z.add_0_r. reflexivity.
    + rewrite <- seq_shift, map_map. rewrite (IH _ _ Hrest) at 1.
      apply map_ext. intros k. f_equal; [|f_equal]; lia.
Qed.

Hypothesis step_pos : 1 <= step.
Hypothesis step_le : step <= chunk_size0.

Lemma span_loop_tiled (fuel : nat) :
  forall (i : Z) (spans : list (Z * Z)),
    0 <= i < L ->
    span_loop fuel L chunk_size0 step i = Ok spans ->
    (exists (e : Z) (rest : list (Z * Z)), spans = (i, e) :: rest)
    /\ tiled L chunk_size0 (chunk_size0 - step) spans.
Proof.
  induction fuel as [|fuel IH]; intros i spans Hi; cbn [span_loop]; [discriminate|].
  destruct (Z.ltb_spec i L) as [_|?]; [|lia].
  destruct (Z.geb_spec (Z.min (i + chunk_size0) L) L) as [Hge|Hlt].
  - intros [= <-]. split; [eauto|]. cbn. lia.
  - destruct (span_loop fuel L chunk_size0 step (i + step)) as [rest| |] eqn:Hrest;
      cbn [outcome_map]; try discriminate.
    intros [= <-]. split; [eauto|].
    destruct (IH (i + step) rest ltac:(lia) Hrest) as [(e' & rest' & ->) Htiled].
    cbn [tiled]. repeat split; try lia. exact Htiled.
Qed.

Lemma span_loop_count (fuel : nat) :
  forall (i : Z) (spans : list (Z * Z)),
    0 <= i < L ->
    span_loop fuel L chunk_size0 step i = Ok spans ->
    Z.of_nat (List.length spans)
    = if L <=? i + chunk_size0 then 1
      else (L - chunk_size0 - i + step - 1) / step + 1.
Proof.
  induction fuel as [|fuel IH]; intros i spans Hi; cbn [span_loop]; [discriminate|].
  destruct (Z.ltb_spec i L) as [_|?]; [|lia].
  destruct (Z.geb_spec (Z.min (i + chunk_size0) L) L) as [Hge|Hlt].
  - intros [= <-]. destruct (Z.leb_spec L (i + chunk_size0)); [reflexivity | lia].
  - destruct (span_loop fuel L chunk_size0 step (i + step)) as [rest| |] eqn:Hrest;
      cbn [outcome_map]; try discriminate.
    intros [= <-]. cbn [List.length]. rewrite Nat2Z.inj_succ.
    rewrite (IH (i + step) rest ltac:(lia) Hrest).
    destruct (Z.leb_spec L (i + chunk_size0)) as [?|_]; [lia|].
    destruct (Z.leb_spec L (i + step + chunk_size0)) as [Hlast|Hmore].
    + assert (Hone : 1 = (L - chunk_size0 - i + step - 1) / step)
        by (apply Z.div_unique_pos with (r := L - chunk_size0 - i - 1); lia).
      rewrite <- Hone. lia.
    + replace (L - chunk_size0 - i + step - 1)
        with (L - chunk_size0 - (i + step) + step - 1 + 1 * step) by lia.
      rewrite Z.div_add by lia. lia.
Qed.

End Layout.

Section ChunkInvariants.

Variable uuid4 : nat -> string.
Variables document_name0 content0 : string.
Variables chunk_size0 step : Z.

(** What holds of every chunk as it is appended holds of all chunks of the
    result. *)
Lemma chunk_loop_forall (P : chunk -> Prop) :
  (forall (k : nat) (i : Z),
     P {| id := uuid4 k;
          content := str_slice content0 i (Z.min (i + chunk_size0) (len content0));
          metadata := {| document_name := document_name0;
                         chunk_index := Z.of_nat k;
                         original_length := len content0;
                         start_pos := i;
                         end_pos := Z.min (i + chunk_size0) (len content0) |} |}) ->
  forall (fuel : nat) (i : Z) (chunks r : list chunk),
    Forall P chunks ->
    chunk_loop fuel uuid4 document_name0 content0 chunk_size0 step i chunks = Ok r ->
    Forall P r.
Proof.
  intros Hnew. induction fuel as [|fuel IH]; intros i chunks r Hall;
    cbn [chunk_loop]; [discriminate|].
  assert (Hall' : forall c, P c -> Forall P (chunks ++ [c])).
  { intros c Hc. apply Forall_app. split; [exact Hall | constructor; [exact Hc | constructor]]. }
  destruct (i <? len content0); [|intros [= <-]; exact Hall].
  destruct (_ >=? _).
  - intros [= <-]. apply Hall', Hnew.
  - apply IH. apply Hall', Hnew.
Qed.

Lemma chunk_loop_ids (fuel : nat) :
  forall (i : Z) (chunks r : list chunk),
    map id chunks = map uuid4 (seq 0 (List.length chunks)) ->
    chunk_loop fuel uuid4 document_name0 content0 chunk_size0 step i chunks = Ok r ->
    map id r = map uuid4 (seq 0 (List.length r)).
Proof.
  assert (Hsnoc : forall (chunks : list chunk) (c : chunk),
            map id chunks = map uuid4 (seq 0 (List.length chunks)) ->
            id c = uuid4 (List.length chunks) ->
            map id (chunks ++ [c]) = map uuid4 (seq 0 (List.length (chunks ++ [c])))).
  { intros chunks c H Hc.
    rewrite map_app, length_app, seq_app, map_app, H. cbn. rewrite Hc. reflexivity. }
  induction fuel as [|fuel IH]; intros i chunks r Hids; cbn [chunk_loop];
    [discriminate|].
  destruct (i <? len content0); [|intros [= <-]; exact Hids].
  destruct (_ >=? _).
  - intros [= <-]. apply Hsnoc; trivial.
  - apply IH. apply Hsnoc; trivial.
Qed.

(** With a positive step the loop ends, wherever the cursor is. *)
Lemma chunk_loop_terminates (fuel : nat) :
  1 <= step ->
  forall (i : Z) (chunks : list chunk),
    (0 < fuel)%nat ->
    len content0 - i < Z.of_nat fuel ->
    exists r : list chunk,
      chunk_loop fuel uuid4 document_name0 content0 chunk_size0 step i chunks = Ok r.
Proof.
  intros Hstep. induction fuel as [|fuel IH]; intros i chunks Hpos Hfuel; [lia|].
  cbn [chunk_loop].
  destruct (Z.ltb_spec i (len content0)) as [Hi|_]; [|eauto].
  destruct (_ >=? _); [eauto|].
  apply IH; lia.
Qed.

End ChunkInvariants.

(** Under a valid configuration the chunker returns, and the spans of its
    chunks are those of the loop on lengths. *)
Lemma chunk_document_valid_run (fuel : nat) (uuid4 : nat -> string)
    (document_name0 content0 : string) (chunk_size0 overlap : Z) :
  chunk_size0 > overlap -> overlap >= 0 ->
  (String.length content0 < fuel)%nat ->
  exists chunks : list chunk,
    chunk_document fuel uuid4 document_name0 content0 chunk_size0 overlap = Ok chunks
    /\ span_loop fuel (len content0) chunk_size0 (chunk_size0 - overlap) 0
       = Ok (map span chunks)
    /\ Forall (well_formed_span (len content0)) (map span chunks)
    /\ (content0 = "" -> chunks = []).
Proof.
  intros Hsize Hoverlap Hfuel.
  pose proof (chunk_document_spans fuel uuid4 document_name0 content0
                chunk_size0 overlap) as Hmap.
  destruct (Z.eq_dec (len content0) 0) as [Hz|Hnz].
  - apply len_zero_empty in Hz. subst content0.
    destruct fuel as [|fuel]; [cbn in Hfuel; lia|].
    exists []. repeat split; constructor.
  - pose proof (len_nonneg content0) as Hlen.
    destruct (span_loop_valid (len content0) chunk_size0 (chunk_size0 - overlap)
                ltac:(lia) ltac:(lia) fuel 0)
      as (e & rest & Hspans & _ & _ & _ & Hwf);
      [lia | unfold len in *; lia |].
    rewrite Hspans in Hmap.
    destruct (chunk_document fuel uuid4 document_name0 content0 chunk_size0 overlap)
      as [chunks| |]; cbn in Hmap; try discriminate.
    injection Hmap as Hmap. exists chunks. rewrite Hmap, Hspans.
    repeat split; trivial.
    intros ->. contradiction.
Qed.

(** X1. Under a valid configuration (chunk_size > overlap >= 0) the chunk
    of rank k spans from k * step to min(k * step + chunk_size, L), with
    step = chunk_size - overlap, and the number of chunks is 0 for an empty
    content, 1 for a content of at most chunk_size characters, and
    ceil((L - chunk_size) / step) + 1 otherwise. *)
Theorem chunk_document_layout (fuel : nat) (uuid4 : nat -> string)
    (document_name0 content0 : string) (chunk_size0 overlap : Z) :
  chunk_size0 > overlap -> overlap >= 0 ->
  (String.length content0 < fuel)%nat ->
  exists chunks : list chunk,
    chunk_document fuel uuid4 document_name0 content0 chunk_size0 overlap = Ok chunks
    /\ map span chunks = layout (len content0) chunk_size0 (chunk_size0 - overlap)
    /\ List.length chunks
       = chunk_count (len content0) chunk_size0 (chunk_size0 - overlap).
Proof.
  intros Hsize Hoverlap Hfuel.
  destruct (chunk_document_valid_run fuel uuid4 document_name0 content0
              chunk_size0 overlap Hsize Hoverlap Hfuel)
    as (chunks & Hrun & Hspans & _ & Hempty).
  exists chunks. split; [exact Hrun|].
  assert (Hcount : List.length chunks
                   = chunk_count (len content0) chunk_size0 (chunk_size0 - overlap)).
  { unfold chunk_count. pose proof (len_nonneg content0) as Hlen.
    destruct (Z.eqb_spec (len content0) 0) as [Hz|Hnz].
    - apply len_zero_empty in Hz. rewrite (Hempty Hz). reflexivity.
    - pose proof (span_loop_count (len content0) chunk_size0 (chunk_size0 - overlap)
                    ltac:(lia) ltac:(lia) fuel 0 (map span chunks) ltac:(lia) Hspans)
        as Hn.
      rewrite length_map in Hn. cbn [Z.add] in Hn. rewrite Z.sub_0_r in Hn.
      rewrite <- Hn. lia. }
  split; [|exact Hcount].
  rewrite (span_loop_closed _ _ _ fuel 0 _ Hspans) at 1.
  rewrite length_map, Hcount. unfold layout. apply map_ext.
  intros k. unfold nth_span. reflexivity.
Qed.

(** The layout of a content of 10 characters cut with chunk_size 4 and
    overlap 1: three chunks, at 0, 3 and 6. *)
Lemma chunk_document_layout_witness :
  exists chunks : list chunk,
    chunk_document 11 (uuid4 (Examples.world 0)) "doc" "abcdefghij" 4 1 = Ok chunks
    /\ map span chunks = [(0, 4); (3, 7); (6, 10)]
    /\ List.length chunks = 3%nat.
Proof.
  apply (chunk_document_layout 11 (uuid4 (Examples.world 0)) "doc" "abcdefghij" 4 1).
  - lia.
  - lia.
  - cbn. lia.
Defined.

(** X2. Under a valid configuration every chunk holds exactly the
    characters of its span, content[start_pos:end_pos], so its length is
    end_pos - start_pos, between 1 and chunk_size; and it records the name
    of the document and the length of the whole content. *)
Theorem chunk_document_contents (fuel : nat) (uuid4 : nat -> string)
    (document_name0 content0 : string) (chunk_size0 overlap : Z) :
  chunk_size0 > overlap -> overlap >= 0 ->
  (String.length content0 < fuel)%nat ->
  exists chunks : list chunk,
    chunk_document fuel uuid4 document_name0 content0 chunk_size0 overlap = Ok chunks
    /\ Forall (describes document_name0 content0) chunks
    /\ Forall (fun c => 1 <= len (content c) <= chunk_size0) chunks.
Proof.
  intros Hsize Hoverlap Hfuel.
  destruct (chunk_document_valid_run fuel uuid4 document_name0 content0
              chunk_size0 overlap Hsize Hoverlap Hfuel)
    as (chunks & Hrun & _ & Hwf & _).
  exists chunks. split; [exact Hrun|].
  assert (Hraw : Forall (fun c =>
            content c = str_slice content0 (start_pos (metadata c))
                          (end_pos (metadata c))
            /\ document_name (metadata c) = document_name0
            /\ original_length (metadata c) = len content0
            /\ end_pos (metadata c) <= start_pos (metadata c) + chunk_size0) chunks).
  { unfold chunk_document in Hrun.
    eapply chunk_loop_forall; [| constructor | exact Hrun].
    intros k i. cbn. repeat split. lia. }
  rewrite Forall_map in Hwf.
  pose proof (Forall_and Hraw Hwf) as Hboth.
  assert (Hlen : Forall (fun c =>
            describes document_name0 content0 c
            /\ 1 <= len (content c) <= chunk_size0) chunks).
  { eapply Forall_impl; [|exact Hboth]. cbn beta.
    intros c [(Hc & Hname & Horig & Hend) (Hs & Hse & HeL)].
    unfold span in *. cbn [fst snd] in *.
    assert (Hlen : len (content c) = end_pos (metadata c) - start_pos (metadata c))
      by (rewrite Hc at 1; apply len_str_slice; lia).
    unfold describes. repeat split; trivial; lia. }
  split; eapply Forall_impl; try exact Hlen; cbn beta; intros c [Hd Hl]; assumption.
Qed.

(** The chunks of a content of 10 characters, chunk_size 4, overlap 1. *)
Lemma chunk_document_contents_witness :
  exists chunks : list chunk,
    chunk_document 11 (uuid4 (Examples.world 0)) "doc" "abcdefghij" 4 1 = Ok chunks
    /\ Forall (describes "doc" "abcdefghij") chunks
    /\ Forall (fun c => 1 <= len (content c) <= 4) chunks.
Proof.
  apply (chunk_document_contents 11 (uuid4 (Examples.world 0)) "doc" "abcdefghij" 4 1).
  - lia.
  - lia.
  - cbn. lia.
Defined.

(** X3. Under a valid configuration every chunk but the last has exactly
    chunk_size characters and stops before the end of the content, the
    chunk after it starts exactly overlap characters before its end (two
    neighbours share overlap characters), and the last chunk ends at the
    end of the content. *)
Theorem chunk_document_neighbours (fuel : nat) (uuid4 : nat -> string)
    (document_name0 content0 : string) (chunk_size0 overlap : Z) :
  chunk_size0 > overlap -> overlap >= 0 ->
  (String.length content0 < fuel)%nat ->
  exists chunks : list chunk,
    chunk_document fuel uuid4 document_name0 content0 chunk_size0 overlap = Ok chunks
    /\ tiled (len content0) chunk_size0 overlap (map span chunks).
Proof.
  intros Hsize Hoverlap Hfuel.
  destruct (chunk_document_valid_run fuel uuid4 document_name0 content0
              chunk_size0 overlap Hsize Hoverlap Hfuel)
    as (chunks & Hrun & Hspans & _ & Hempty).
  exists chunks. split; [exact Hrun|].
  pose proof (len_nonneg content0) as Hlen.
  destruct (Z.eq_dec (len content0) 0) as [Hz|Hnz].
  - apply len_zero_empty in Hz. rewrite (Hempty Hz). exact I.
  - destruct (span_loop_tiled (len content0) chunk_size0 (chunk_size0 - overlap)
                ltac:(lia) ltac:(lia) fuel 0 (map span chunks) ltac:(lia) Hspans)
      as [_ Htiled].
    replace (chunk_size0 - (chunk_size0 - overlap)) with overlap in Htiled by lia.
    exact Htiled.
Qed.

(** Neighbours in a content of 10 characters, chunk_size 4, overlap 1. *)
Lemma chunk_document_neighbours_witness :
  exists chunks : list chunk,
    chunk_document 11 (uuid4 (Examples.world 0)) "doc" "abcdefghij" 4 1 = Ok chunks
    /\ tiled 10 4 1 (map span chunks).
Proof.
  apply (chunk_document_neighbours 11 (uuid4 (Examples.world 0)) "doc"
           "abcdefghij" 4 1).
  - lia.
  - lia.
  - cbn. lia.
Defined.

(** ** Putting the chunks back together *)

Lemma append_empty_r (s : string) : s ++ "" = s.
Proof. induction s as [|c s IH]; cbn; [reflexivity | now rewrite IH]. Qed.

Lemma concat_empty_cons (x : string) (xs : list string) :
  String.concat "" (x :: xs) = x ++ String.concat "" xs.
Proof. destruct xs; cbn; [now rewrite append_empty_r | reflexivity]. Qed.

Lemma str_slice_empty (s : string) (a : Z) :
  0 <= a <= len s -> str_slice s a a = "".
Proof.
  intros Ha. apply len_zero_empty. rewrite len_str_slice; lia.
Qed.

Section Reassembly.

Variable content0 : string.
Variables chunk_size0 overlap : Z.
Hypothesis overlap_nonneg : 0 <= overlap.
Hypothesis overlap_lt : overlap < chunk_size0.

(** The later chunks, each without its first [overlap] characters, spell
    the content from the end of the chunk before them. *)
Lemma reassemble_rest (rest : list chunk) :
  forall s e : Z,
    0 <= e <= len content0 ->
    tiled (len content0) chunk_size0 overlap ((s, e) :: map span rest) ->
    Forall (fun c => content c = str_slice content0 (start_pos (metadata c))
                                   (end_pos (metadata c))) rest ->
    Forall (well_formed_span (len content0)) (map span rest) ->
    String.concat ""
      (map (fun c' => str_slice (content c') overlap (len (content c'))) rest)
    = str_slice content0 e (len content0).
Proof.
  induction rest as [|c rest IH]; intros s e He Htiled Hslice Hwf.
  - cbn in Htiled. subst e. cbn. symmetry. apply str_slice_empty. lia.
  - cbn [map] in *. rewrite concat_empty_cons.
    inversion Hslice as [|? ? Hc Hslice']; subst.
    inversion Hwf as [|? ? (Hs' & Hlt & HeL) Hwf']; subst.
    unfold span at 1 in Htiled. cbn [tiled] in Htiled.
    destruct Htiled as (Hfull & HltL & Hnext & Htiled).
    unfold span in Hs', Hlt, HeL. cbn [fst snd] in Hs', Hlt, HeL.
    assert (Hee : e <= end_pos (metadata c)).
    { destruct rest as [|c' rest'].
      - cbn in Htiled. lia.
      - cbn [map tiled] in Htiled. unfold span at 1 in Htiled. lia. }
    rewrite Hc at 1 2.
    rewrite str_slice_drop by lia.
    replace (start_pos (metadata c) + overlap) with e by lia.
    rewrite (IH (start_pos (metadata c)) (end_pos (metadata c)));
      [| lia | exact Htiled | exact Hslice' | exact Hwf'].
    apply str_slice_app; lia.
Qed.

End Reassembly.

(** X4. Round trip: under a valid configuration, the first chunk followed
    by every later chunk without its first overlap characters is the
    content again. *)
Theorem chunk_document_reassemble (fuel : nat) (uuid4 : nat -> string)
    (document_name0 content0 : string) (chunk_size0 overlap : Z) :
  chunk_size0 > overlap -> overlap >= 0 ->
  (String.length content0 < fuel)%nat ->
  exists chunks : list chunk,
    chunk_document fuel uuid4 document_name0 content0 chunk_size0 overlap = Ok chunks
    /\ reassemble overlap chunks = content0.
Proof.
  intros Hsize Hoverlap Hfuel.
  destruct (chunk_document_valid_run fuel uuid4 document_name0 content0
              chunk_size0 overlap Hsize Hoverlap Hfuel)
    as (chunks & Hrun & Hspans & Hwf & Hempty).
  exists chunks. split; [exact Hrun|].
  pose proof (len_nonneg content0) as Hlen.
  destruct (Z.eq_dec (len content0) 0) as [Hz|Hnz].
  { apply len_zero_empty in Hz. rewrite (Hempty Hz). symmetry. exact Hz. }
  assert (Hslice : Forall (fun c =>
            content c = str_slice content0 (start_pos (metadata c))
                          (end_pos (metadata c))) chunks).
  { unfold chunk_document in Hrun.
    eapply chunk_loop_forall; [| constructor | exact Hrun]. reflexivity. }
  destruct (span_loop_tiled (len content0) chunk_size0 (chunk_size0 - overlap)
              ltac:(lia) ltac:(lia) fuel 0 (map span chunks) ltac:(lia) Hspans)
    as [(e & rest & Hfirst) Htiled].
  replace (chunk_size0 - (chunk_size0 - overlap)) with overlap in Htiled by lia.
  destruct chunks as [|c chunks]; [discriminate Hfirst|].
  cbn [map] in *. injection Hfirst as Hstart Hend Hrest.
  inversion Hslice as [|? ? Hc Hslice']; subst.
  inversion Hwf as [|? ? (Hs & Hlt & HeL) Hwf']; subst.
  unfold span in Hs, Hlt, HeL. cbn [fst snd] in Hs, Hlt, HeL.
  unfold reassemble.
  rewrite (reassemble_rest content0 chunk_size0 overlap ltac:(lia) ltac:(lia)
             chunks (start_pos (metadata c)) (end_pos (metadata c)));
    [| lia | exact Htiled | exact Hslice' | exact Hwf'].
  rewrite Hc at 1. rewrite Hstart.
  rewrite str_slice_app by lia. apply str_slice_all.
Qed.

(** The chunks abcd, defg, ghij give back abcdefghij. *)
Lemma chunk_document_reassemble_witness :
  exists chunks : list chunk,
    chunk_document 11 (uuid4 (Examples.world 0)) "doc" "abcdefghij" 4 1 = Ok chunks
    /\ reassemble 1 chunks = "abcdefghij".
Proof.
  apply (chunk_document_reassemble 11 (uuid4 (Examples.world 0)) "doc"
           "abcdefghij" 4 1).
  - lia.
  - lia.
  - cbn. lia.
Defined.

Lemma NoDup_map_injective {A B : Type} (f : A -> B) (l : list A) :
  (forall a b : A, f a = f b -> a = b) -> NoDup l -> NoDup (map f l).
Proof.
  intros Hinj Hl. induction Hl as [|a l Hnotin Hl IH]; cbn; constructor.
  - intros Hin. apply in_map_iff in Hin as (b & Hb & Hin).
    apply Hinj in Hb. subst b. contradiction.
  - exact IH.
Qed.

(** X5. A call draws exactly one identifier per chunk, in order: the chunk
    of rank k carries the k-th identifier drawn.  Hence the chunks of a
    call have pairwise distinct ids whenever uuid4 never repeats a value. *)
Theorem chunk_document_ids (fuel : nat) (uuid4 : nat -> string)
    (document_name0 content0 : string) (chunk_size0 overlap : Z) :
  chunk_size0 > overlap -> overlap >= 0 ->
  (String.length content0 < fuel)%nat ->
  exists chunks : list chunk,
    chunk_document fuel uuid4 document_name0 content0 chunk_size0 overlap = Ok chunks
    /\ map id chunks = map uuid4 (seq 0 (List.length chunks))
    /\ ((forall a b : nat, uuid4 a = uuid4 b -> a = b) -> NoDup (map id chunks)).
Proof.
  intros Hsize Hoverlap Hfuel.
  destruct (chunk_document_valid_run fuel uuid4 document_name0 content0
              chunk_size0 overlap Hsize Hoverlap Hfuel)
    as (chunks & Hrun & _).
  exists chunks. split; [exact Hrun|].
  assert (Hids : map id chunks = map uuid4 (seq 0 (List.length chunks))).
  { unfold chunk_document in Hrun.
    eapply chunk_loop_ids; [|exact Hrun]. reflexivity. }
  split; [exact Hids|].
  intros Hinj. rewrite Hids.
  apply NoDup_map_injective; [exact Hinj | apply seq_NoDup].
Qed.

(** The ids of the three chunks of a content of 10 characters. *)
Lemma chunk_document_ids_witness :
  exists chunks : list chunk,
    chunk_document 11 (uuid4 (Examples.world 0)) "doc" "abcdefghij" 4 1 = Ok chunks
    /\ map id chunks
       = map (uuid4 (Examples.world 0)) (seq 0 (List.length chunks))
    /\ ((forall a b : nat,
           uuid4 (Examples.world 0) a = uuid4 (Examples.world 0) b -> a = b) ->
        NoDup (map id chunks)).
Proof.
  apply (chunk_document_ids 11 (uuid4 (Examples.world 0)) "doc" "abcdefghij" 4 1).
  - lia.
  - lia.
  - cbn. lia.
Defined.

(** X6. Termination of the chunker: chunk_document returns for some loop
    budget exactly when the content is empty, or fits in one chunk, or
    overlap < chunk_size.  In the remaining case (a non-empty content longer
    than chunk_size with overlap >= chunk_size) the cursor never advances
    and no budget is enough. *)
Theorem chunk_document_terminates_iff (uuid4 : nat -> string)
    (document_name0 content0 : string) (chunk_size0 overlap : Z) :
  (exists (fuel : nat) (chunks : list chunk),
     chunk_document fuel uuid4 document_name0 content0 chunk_size0 overlap = Ok chunks)
  <-> (content0 = "" \/ len content0 <= chunk_size0 \/ overlap < chunk_size0).
Proof.
  split.
  - intros (fuel & chunks & Hrun).
    destruct (string_dec content0 "") as [Hempty|Hne]; [left; exact Hempty|].
    destruct (Z.le_gt_cases (len content0) chunk_size0) as [Hfit|Hlong];
      [right; left; exact Hfit|].
    destruct (Z.lt_ge_cases overlap chunk_size0) as [Hstep|Hdeg];
      [right; right; exact Hstep|].
    rewrite chunk_document_degenerate_diverges in Hrun by (trivial; lia).
    discriminate Hrun.
  - intros [Hempty | [Hfit | Hstep]].
    + subst content0. exists 1%nat, []. reflexivity.
    + destruct (string_dec content0 "") as [->|Hne].
      * exists 1%nat, []. reflexivity.
      * exists 1%nat. eexists. apply chunk_document_single_chunk_aux; assumption.
    + exists (S (String.length content0)).
      unfold chunk_document. apply chunk_loop_terminates; unfold len; lia.
Qed.

(** Both directions at chunk_size 4: overlap 1 returns, overlap 4 on a
    content of 10 characters does not. *)
Lemma chunk_document_terminates_iff_witness :
  (exists (fuel : nat) (chunks : list chunk),
     chunk_document fuel (uuid4 (Examples.world 0)) "doc" "abcdefghij" 4 1 = Ok chunks)
  /\ ~ (exists (fuel : nat) (chunks : list chunk),
          chunk_document fuel (uuid4 (Examples.world 0)) "doc" "abcdefghij" 4 4
          = Ok chunks).
Proof.
  split.
  - apply (chunk_document_terminates_iff (uuid4 (Examples.world 0)) "doc"
             "abcdefghij" 4 1).
    right. right. lia.
  - intros Hrun.
    apply (chunk_document_terminates_iff (uuid4 (Examples.world 0)) "doc"
             "abcdefghij" 4 4) in Hrun.
    destruct Hrun as [Hempty | [Hfit | Hstep]];
      [discriminate Hempty | cbn in Hfit; lia | lia].
Defined.

(** ** The client of the vector store *)

Import Effects.

Lemma rstrip_slash_spec (s : string) :
  exists n : nat,
    s = EndeeClient.rstrip_slash s ++ slashes n
    /\ last_char (EndeeClient.rstrip_slash s) <> Some "/"%char.
Proof.
  induction s as [|c rest (n & Hrest & Hlast)].
  - exists 0%nat. split; [reflexivity | discriminate].
  - cbn [EndeeClient.rstrip_slash].
    destruct (EndeeClient.rstrip_slash rest) as [|c' r] eqn:Hr.
    + destruct (Ascii.eqb_spec c "/"%char) as [->|Hc].
      * exists (S n). split; [|discriminate].
        cbn in Hrest. rewrite Hrest at 1. reflexivity.
      * exists n. split; [cbn in *; now rewrite Hrest at 1|].
        cbn. intros [= Heq]. contradiction.
    + exists n. split; [cbn in *; now rewrite Hrest at 1|]. exact Hlast.
Qed.

(** X7. The base URL kept by the client is the one given without its
    trailing slashes: it differs from it by trailing slashes only and does
    not end with a slash, so every request URL joins the base and the
    endpoint with a single slash. *)
Theorem client_base_url (base_url0 : string) (auth_token0 : option string)
    (timeout0 : Z) :
  exists n : nat,
    base_url0
    = EndeeClient.base_url (EndeeClient.init base_url0 auth_token0 timeout0)
        ++ slashes n
    /\ last_char (EndeeClient.base_url (EndeeClient.init base_url0 auth_token0 timeout0))
       <> Some "/"%char.
Proof. apply rstrip_slash_spec. Qed.

Lemma make_request_state (w : World) (self : EndeeClient.client)
    (method endpoint : string) (data : option pyval) (st : state) :
  snd (EndeeClient._make_request w self method endpoint data st)
  = sent (EndeeClient.api_request self method endpoint data) st.
Proof. rewrite make_request_run. reflexivity. Qed.

(** A call of [_make_request] followed by code without effects. *)
Lemma after_make_request {A : Type} (w : World) (self : EndeeClient.client)
    (method endpoint : string) (data : option pyval) (k : dict -> A) (st : state) :
  snd (bind (EndeeClient._make_request w self method endpoint data)
            (fun response => ret (k response)) st)
  = sent (EndeeClient.api_request self method endpoint data) st.
Proof.
  unfold bind.
  pose proof (make_request_state w self method endpoint data st) as Hst.
  destruct (EndeeClient._make_request w self method endpoint data st)
    as [[d|e|] st1]; cbn [snd] in *; exact Hst.
Qed.

(** X8. Every operation of the client (health_check, create_index,
    list_indices, delete_index, insert, search, get_vector, delete_vector,
    get_index_stats) hands exactly one request to the session per call,
    whether it returns or raises: the client itself neither repeats nor
    splits a request (retries are those of the session only). *)
Theorem client_sends_one_request (w : World) (self : EndeeClient.client)
    (st : state) :
  sends_one_request (EndeeClient.health_check w self) st
  /\ (forall name dimension0 metric,
        sends_one_request (EndeeClient.create_index w self name dimension0 metric) st)
  /\ sends_one_request (EndeeClient.list_indices w self) st
  /\ (forall name, sends_one_request (EndeeClient.delete_index w self name) st)
  /\ (forall index_name0 vectors,
        sends_one_request (EndeeClient.insert w self index_name0 vectors) st)
  /\ (forall index_name0 query_vector k filter_,
        sends_one_request
          (EndeeClient.search w self index_name0 query_vector k filter_) st)
  /\ (forall index_name0 vector_id,
        sends_one_request (EndeeClient.get_vector w self index_name0 vector_id) st)
  /\ (forall index_name0 vector_id,
        sends_one_request (EndeeClient.delete_vector w self index_name0 vector_id) st)
  /\ (forall index_name0,
        sends_one_request (EndeeClient.get_index_stats w self index_name0) st).
Proof.
  unfold sends_one_request.
  repeat match goal with |- _ /\ _ => split end; intros; eexists.
  - rewrite health_check_run. reflexivity.
  - apply create_index_state.
  - apply (after_make_request w self).
  - apply (after_make_request w self _ _ _ (fun _ => tt)).
  - apply (after_make_request w self _ _ _ (fun _ => tt)).
  - apply endee_search_state.
  - unfold EndeeClient.get_vector, try_except.
    pose proof (after_make_request w self "GET"
                  ("/api/v1/index/" ++ index_name0 ++ "/vector/" ++ vector_id) None
                  (fun response => dict_get response "vector" PNone) st) as Hst.
    match goal with
    | |- snd (match ?run with _ => _ end) = _ =>
        destruct run as [[v|e|] st1]; cbn [snd] in *; try exact Hst
    end.
    unfold except_HTTPError.
    destruct e as [?|?|?|?|?|status|?|? ?|?| |]; cbn; try exact Hst.
    destruct (status =? 404); exact Hst.
  - apply (after_make_request w self _ _ _ (fun _ => tt)).
  - apply make_request_state.
Qed.

Lemma make_request_cases (w : World) (self : EndeeClient.client)
    (method endpoint : string) (data : option pyval) (st : state) :
  (forall e : exn,
     session_request w (http_count st)
       (EndeeClient.api_request self method endpoint data) = Failure e ->
     fst (EndeeClient._make_request w self method endpoint data st) = Raise e)
  /\ (forall response : http_response,
        session_request w (http_count st)
          (EndeeClient.api_request self method endpoint data) = Answer response ->
        (error_status (status_code response) ->
         fst (EndeeClient._make_request w self method endpoint data st)
         = Raise (HTTPError (status_code response)))
        /\ (accepted response ->
            fst (EndeeClient._make_request w self method endpoint data st)
            = Ok (json_of response))
        /\ (~ error_status (status_code response) ->
            text response <> "" -> body response = None ->
            exists e : exn,
              fst (EndeeClient._make_request w self method endpoint data st)
              = Raise e)).
Proof.
  rewrite make_request_run. cbn [fst]. split.
  - intros e ->. reflexivity.
  - intros response ->. unfold error_status, json_of. split; [|split].
    + intros Hstatus.
      replace ((400 <=? status_code response) && (status_code response <? 600))
        with true by (symmetry; apply andb_true_iff; lia).
      reflexivity.
    + intros [Hstatus Hbody].
      replace ((400 <=? status_code response) && (status_code response <? 600))
        with false by (symmetry; apply andb_false_iff; lia).
      destruct (String.eqb_spec (text response) "") as [Hempty|Hfull]; cbn [negb].
      * reflexivity.
      * destruct Hbody as [?|Hjson]; [contradiction|].
        destruct (body response); [reflexivity | contradiction].
    + intros Hstatus Htext Hbody.
      replace ((400 <=? status_code response) && (status_code response <? 600))
        with false by (symmetry; apply andb_false_iff; lia).
      destruct (String.eqb_spec (text response) "") as [?|_]; [contradiction|].
      cbn [negb]. rewrite Hbody. eauto.
Qed.



Lemma get_vector_run (w : World) (self : EndeeClient.client)
    (index_name0 vector_id : string) (st : state) :
  fst (EndeeClient.get_vector w self index_name0 vector_id st)
  = match fst (EndeeClient._make_request w self "GET"
                 ("/api/v1/index/" ++ index_name0 ++ "/vector/" ++ vector_id)
                 None st) with
    | Ok response => Ok (dict_get response "vector" PNone)
    | Raise (HTTPError status) =>
        if status =? 404 then Ok PNone else Raise (HTTPError status)
    | Raise e => Raise e
    | OutOfFuel => OutOfFuel
    end.
Proof.
  unfold EndeeClient.get_vector, try_except, bind.
  destruct (EndeeClient._make_request w self "GET" _ None st) as [[d|e|] st1];
    cbn; try reflexivity.
  destruct e as [?|?|?|?|?|status|?|? ?|?| |]; cbn; try reflexivity.
  destruct (status =? 404); reflexivity.
Qed.

(** X10. get_vector turns a missing vector into None: when the session
    hands back a response with status 404 it returns None and raises
    nothing; any other status in 400..599 that the session hands back for a
    GET (so none of 500, 502, 503, 504) raises HTTPError with that status;
    an exception of the session, such as the RetryError after a repeated
    503, is raised unchanged; an accepted response whose body is a JSON
    object gives the value under the key vector, or None when the key is
    missing. *)
Theorem get_vector_missing (w : World) (self : EndeeClient.client)
    (index_name0 vector_id : string) (st : state) :
  (forall response : http_response,
     session_request w (http_count st)
       (EndeeClient.api_request self "GET"
          ("/api/v1/index/" ++ index_name0 ++ "/vector/" ++ vector_id) None)
     = Answer response ->
     (status_code response = 404 ->
      fst (EndeeClient.get_vector w self index_name0 vector_id st) = Ok PNone)
     /\ (error_status (status_code response) -> status_code response <> 404 ->
         SessionSpec.hands_back "GET" (status_code response) = true ->
         fst (EndeeClient.get_vector w self index_name0 vector_id st)
         = Raise (HTTPError (status_code response)))
     /\ (accepted response ->
         fst (EndeeClient.get_vector w self index_name0 vector_id st)
         = Ok (dict_get (json_of response) "vector" PNone)))
  /\ (forall e : exn,
        session_request w (http_count st)
          (EndeeClient.api_request self "GET"
             ("/api/v1/index/" ++ index_name0 ++ "/vector/" ++ vector_id) None)
        = Failure e ->
        e <> HTTPError 404 ->
        fst (EndeeClient.get_vector w self index_name0 vector_id st) = Raise e).
Proof.
  rewrite get_vector_run.
  destruct (make_request_cases w self "GET"
              ("/api/v1/index/" ++ index_name0 ++ "/vector/" ++ vector_id) None st)
    as [Hfailure Hrun].
  split.
  - intros response Hans.
    destruct (Hrun response Hans) as (Herror & Haccepted & _).
    split; [|split].
    + intros H404. rewrite Herror by (unfold error_status; lia).
      rewrite H404. reflexivity.
    + intros Hstatus Hnot _. rewrite (Herror Hstatus).
      destruct (Z.eqb_spec (status_code response) 404); [contradiction | reflexivity].
    + intros Hacc. rewrite (Haccepted Hacc). reflexivity.
  - intros e Hans Hnot. rewrite (Hfailure e Hans).
    destruct e as [?|?|?|?|?|status|?|? ?|?| |]; try reflexivity.
    destruct (Z.eqb_spec status 404) as [->|_]; [contradiction | reflexivity].
Qed.

(** A store that answers 404: get_vector returns None.  A store that
    answers 503: get_vector raises the RetryError of the session. *)
Lemma get_vector_missing_witness :
  fst (EndeeClient.get_vector (Scenarios.store_answering 404)
         (RAGService.endee_client Examples.plain_service)
         "documents" "no-such-id" initial_state)
  = Ok PNone
  /\ fst (EndeeClient.get_vector (Scenarios.store_answering 503)
            (RAGService.endee_client Examples.plain_service)
            "documents" "no-such-id" initial_state)
     = Raise SessionSpec.RetryError.
Proof.
  split.
  - apply (proj1 (proj1 (get_vector_missing (Scenarios.store_answering 404)
                    (RAGService.endee_client Examples.plain_service)
                    "documents" "no-such-id" initial_state)
                  {| status_code := 404; text := ""; body := None |} eq_refl)).
    reflexivity.
  - apply (proj2 (get_vector_missing (Scenarios.store_answering 503)
                    (RAGService.endee_client Examples.plain_service)
                    "documents" "no-such-id" initial_state)).
    + reflexivity.
    + discriminate.
Defined.

(** ** Statistics and start-up failures *)

Lemma get_statistics_run (w : World) (self : RAGService.service) (st : state) :
  fst (RAGService.get_statistics w self st)
  = match fst (EndeeClient._make_request w (RAGService.endee_client self) "GET"
                 ("/api/v1/index/" ++ RAGService.index_name self ++ "/stats")
                 None st) with
    | Raise e => if is_Exception e then Ok statistics_unavailable else Raise e
    | other => other
    end.
Proof.
  unfold RAGService.get_statistics, EndeeClient.get_index_stats, try_except.
  destruct (EndeeClient._make_request w _ "GET" _ None st) as [[d|e|] st1];
    cbn; try reflexivity.
  unfold except_Exception. destruct (is_Exception e); reflexivity.
Qed.

(** X11. get_statistics never fails with an exception derived from
    Exception: when the store refuses the request (status 400..599) or
    the transport fails, it returns the marker
    error: Unable to fetch statistics; when the store accepts, it returns the
    statistics as received. *)
Theorem get_statistics_degrades (w : World) (self : RAGService.service)
    (st : state) :
  (forall e : exn,
     fst (RAGService.get_statistics w self st) = Raise e -> is_Exception e = false)
  /\ (forall response : http_response,
        session_request w (http_count st)
          (EndeeClient.api_request (RAGService.endee_client self) "GET"
             ("/api/v1/index/" ++ RAGService.index_name self ++ "/stats") None)
        = Answer response ->
        (error_status (status_code response) ->
         fst (RAGService.get_statistics w self st) = Ok statistics_unavailable)
        /\ (accepted response ->
            fst (RAGService.get_statistics w self st) = Ok (json_of response)))
  /\ (forall e : exn,
        session_request w (http_count st)
          (EndeeClient.api_request (RAGService.endee_client self) "GET"
             ("/api/v1/index/" ++ RAGService.index_name self ++ "/stats") None)
        = Failure e ->
        is_Exception e = true ->
        fst (RAGService.get_statistics w self st) = Ok statistics_unavailable).
Proof.
  rewrite get_statistics_run.
  destruct (make_request_cases w (RAGService.endee_client self) "GET"
              ("/api/v1/index/" ++ RAGService.index_name self ++ "/stats") None st)
    as [Hfailure Hanswer].
  split; [|split].
  - intros e.
    destruct (fst (EndeeClient._make_request w _ "GET" _ None st)) as [d|e'|];
      try discriminate.
    destruct (is_Exception e') eqn:He'; [discriminate|].
    intros [= <-]. exact He'.
  - intros response Hans. destruct (Hanswer response Hans) as (Herror & Hacc & _).
    split.
    + intros Hstatus. rewrite (Herror Hstatus). reflexivity.
    + intros Haccepted. rewrite (Hacc Haccepted). reflexivity.
  - intros e Hans He. rewrite (Hfailure e Hans), He. reflexivity.
Qed.

(** A store that answers 500: the session gives up after its retries and
    the statistics are the marker. *)
Lemma get_statistics_degrades_witness :
  fst (RAGService.get_statistics (Scenarios.store_answering 500)
         Examples.plain_service initial_state)
  = Ok statistics_unavailable.
Proof.
  apply (proj2 (proj2 (get_statistics_degrades (Scenarios.store_answering 500)
                         Examples.plain_service initial_state))
           SessionSpec.RetryError).
  - reflexivity.
  - reflexivity.
Defined.

Lemma create_index_refused (w : World) (self : EndeeClient.client)
    (name : string) (dimension0 : Z) (metric : string) (st : state)
    (response : http_response) :
  session_request w (http_count st)
    (EndeeClient.api_request self "POST" "/api/v1/index/create"
       (Some (EndeeClient.create_index_data name dimension0 metric)))
  = Answer response ->
  error_status (status_code response) ->
  status_code response <> 409 ->
  fst (EndeeClient.create_index w self name dimension0 metric st)
  = Raise (HTTPError (status_code response)).
Proof.
  intros Hans Hstatus Hnot.
  unfold EndeeClient.create_index, try_except, bind.
  rewrite make_request_run, Hans. unfold error_status in Hstatus.
  replace ((400 <=? status_code response) && (status_code response <? 600))
    with true by (symmetry; apply andb_true_iff; lia).
  cbn. destruct (Z.eqb_spec (status_code response) 409); [contradiction | reflexivity].
Qed.

(** X12. Start-up fails when the index cannot be created: if poll k
    (k < 10) is the first healthy one and the store answers the creation
    of the index with a status in 400..599 other than 409, initialize
    raises HTTPError with that status. *)
Theorem initialize_create_refused (w : World) (self : RAGService.service)
    (st : state) (k : nat) (response : http_response) :
  (k < 10)%nat ->
  (forall j : nat, (j < k)%nat ->
     healthy_at w (RAGService.endee_client self) (http_count st + j) = false) ->
  healthy_at w (RAGService.endee_client self) (http_count st + k) = true ->
  session_request w (S (http_count st + k)) (create_request self) = Answer response ->
  error_status (status_code response) ->
  status_code response <> 409 ->
  fst (RAGService.initialize w self st) = Raise (HTTPError (status_code response)).
Proof.
  intros Hk Hbefore Hnow Hans Hstatus Hnot.
  unfold RAGService.initialize, RAGService.max_retries.
  rewrite (bind_Ok _ _ _ _ _ (wait_first_healthy w self 10 st k Hk Hbefore Hnow)).
  eapply create_index_refused; [exact Hans | exact Hstatus | exact Hnot].
Qed.

(** A store that is healthy at once and answers the creation with 500. *)
Lemma initialize_create_refused_witness :
  fst (RAGService.initialize (Scenarios.store_healthy_then 500)
         Examples.plain_service initial_state)
  = Raise (HTTPError 500).
Proof.
  apply (initialize_create_refused (Scenarios.store_healthy_then 500)
           Examples.plain_service initial_state 0
           {| status_code := 500; text := ""; body := None |}).
  - lia.
  - intros j Hj. lia.
  - reflexivity.
  - reflexivity.
  - unfold error_status. cbn. lia.
  - cbn. lia.
Defined.

(** ** Retrieval: what is called and what is not *)

Section Preserves.

Context {A B : Type}.
Variable counter : state -> nat.

Lemma preserves_ret (a : A) : preserves counter (ret a).
Proof. intros st. reflexivity. Qed.

Lemma preserves_raise (e : exn) : preserves counter (@raise A e).
Proof. intros st. reflexivity. Qed.

Lemma preserves_lift (o : outcome A) : preserves counter (lift o).
Proof. intros st. reflexivity. Qed.

Lemma preserves_bind (m : M A) (k : A -> M B) :
  preserves counter m -> (forall a : A, preserves counter (k a)) ->
  preserves counter (bind m k).
Proof.
  intros Hm Hk st. unfold bind. specialize (Hm st).
  destruct (m st) as [[a|e|] st1]; cbn [snd] in *; try exact Hm.
  rewrite Hk. exact Hm.
Qed.

Lemma preserves_try_except (m : M A) (catches : exn -> bool) (handler : exn -> M A) :
  preserves counter m -> (forall e : exn, preserves counter (handler e)) ->
  preserves counter (try_except m catches handler).
Proof.
  intros Hm Hh st. unfold try_except. specialize (Hm st).
  destruct (m st) as [[a|e|] st1]; cbn [snd] in *; try exact Hm.
  destruct (catches e); [|exact Hm]. rewrite Hh. exact Hm.
Qed.

End Preserves.

Lemma search_keeps_chat_count (w : World) (settings : Config.Settings)
    (self : RAGService.service) (query0 : string) (top_k : option Z) :
  preserves chat_count (RAGService.search w settings self query0 top_k false).
Proof.
  unfold RAGService.search. cbn [andb].
  apply preserves_bind; [intros st; reflexivity | intros t0].
  apply preserves_bind; [intros st; reflexivity | intros qe].
  apply preserves_bind; [intros st; reflexivity | intros t1].
  apply preserves_bind.
  { intros st. rewrite endee_search_state. reflexivity. }
  intros results0.
  apply preserves_bind; [intros st; reflexivity | intros t2].
  apply preserves_bind; [apply preserves_ret | intros generated].
  apply preserves_bind; [intros st; reflexivity | intros t3].
  apply preserves_bind; [apply preserves_lift | intros count].
  apply preserves_ret.
Qed.

(** The run of search once the query is embedded and the store has
    accepted the search and returned [results0]. *)
Lemma search_after_retrieval (w : World) (settings : Config.Settings)
    (self : RAGService.service) (query0 : string) (top_k : option Z)
    (use_llm : bool) (st : state)
    (query_vector : embedding) (answer0 : http_response) :
  model_encode w query0 = Answer query_vector ->
  session_request w (http_count st)
    (search_request self query_vector (RAGService.resolve_top_k settings top_k))
  = Answer answer0 ->
  accepted answer0 ->
  RAGService.search w settings self query0 top_k use_llm st
  = bind
      (if use_llm && truthy (results_of answer0)
          && match RAGService.openai_client self with
             | Some _ => true
             | None => false
             end
       then bind (RAGService._generate_answer w settings self query0
                    (results_of answer0))
                 (fun a => ret (Some a))
       else ret None)
      (fun generated =>
         bind (time w) (fun t_end =>
           bind (lift (py_len (results_of answer0))) (fun count =>
             ret {| RAGService.query := query0;
                    RAGService.results := results_of answer0;
                    RAGService.generated_answer := generated;
                    RAGService.retrieval_time_ms :=
                      fmul w (fsub w (time_time w (S (S (clock_count st))))
                                     (time_time w (S (clock_count st)))) 1000;
                    RAGService.total_time_ms :=
                      fmul w (fsub w t_end (time_time w (clock_count st))) 1000;
                    RAGService.result_count := count |})))
      (clock_read
         (sent (search_request self query_vector
                  (RAGService.resolve_top_k settings top_k))
            (clock_read (emit (Encode [query0]) (clock_read st))))).
Proof.
  intros Hembed Hstore Haccepted.
  unfold RAGService.search.
  run_with (time_run w st). cbv zeta.
  run_with (embed_text_run w (RAGService.embedding_service self) query0
              query_vector (clock_read st) Hembed).
  run_with (time_run w (emit (Encode [query0]) (clock_read st))).
  run_with (endee_search_run w self query_vector
              (RAGService.resolve_top_k settings top_k)
              (clock_read (emit (Encode [query0]) (clock_read st)))
              answer0 Hstore Haccepted).
  match goal with |- bind (time w) _ ?s = _ => run_with (time_run w s) end.
  reflexivity.
Qed.

(** X13. With use_llm = false the Answerer is never called, whatever
    happens: no chat completion is requested in any run of search.  When
    the retrieval succeeds, search returns the results of the store as
    received, in the same order, with result_count their number and
    generated_answer None. *)
Theorem search_without_llm (w : World) (settings : Config.Settings)
    (self : RAGService.service) (query0 : string) (top_k : option Z) (st : state) :
  no_chat st (snd (RAGService.search w settings self query0 top_k false st))
  /\ forall (query_vector : embedding) (answer0 : http_response)
            (items : list pyval),
       model_encode w query0 = Answer query_vector ->
       session_request w (http_count st)
         (search_request self query_vector (RAGService.resolve_top_k settings top_k))
       = Answer answer0 ->
       accepted answer0 ->
       results_of answer0 = PList items ->
       exists (response : RAGService.search_result) (st' : state),
         RAGService.search w settings self query0 top_k false st = (Ok response, st')
         /\ RAGService.query response = query0
         /\ RAGService.results response = PList items
         /\ RAGService.result_count response = Z.of_nat (List.length items)
         /\ RAGService.generated_answer response = None.
Proof.
  split; [apply search_keeps_chat_count|].
  intros query_vector answer0 items Hembed Hstore Haccepted Hresults.
  rewrite (search_after_retrieval w settings self query0 top_k false st
             query_vector answer0 Hembed Hstore Haccepted).
  rewrite Hresults. cbn [andb].
  eexists. eexists. split; [reflexivity|]. cbn. auto.
Qed.

(** The example of a search for test query with top_k = 2 on a store that
    returns the results a and b: both come back, in that order. *)
Lemma search_without_llm_witness :
  exists (response : RAGService.search_result) (st' : state),
    RAGService.search (Examples.world 0) Config.default_settings
      Examples.plain_service "test query" (Some 2) false initial_state
    = (Ok response, st')
    /\ RAGService.query response = "test query"
    /\ RAGService.results response = Examples.sample_results
    /\ RAGService.result_count response = 2
    /\ RAGService.generated_answer response = None.
Proof.
  apply (proj2 (search_without_llm (Examples.world 0) Config.default_settings
                  Examples.plain_service "test query" (Some 2) initial_state)
           [1 # 2; 1 # 3] Examples.ok_response
           match Examples.sample_results with PList l => l | _ => [] end
           eq_refl eq_refl).
  - split; [left; cbn; lia | right; discriminate].
  - reflexivity.
Defined.

(** X14. A failure of the retrieval is raised by search as it is.  If the
    embedding of the query fails, search raises that exception and neither
    the store nor the Answerer is called.  If the store refuses the search
    (status 400..599) or the transport fails, search raises HTTPError with
    that status, or the exception of the transport, and the Answerer is not
    called. *)
Theorem search_retrieval_failure (w : World) (settings : Config.Settings)
    (self : RAGService.service) (query0 : string) (top_k : option Z)
    (use_llm : bool) (st : state) :
  (forall e : exn,
     model_encode w query0 = Failure e ->
     exists st' : state,
       RAGService.search w settings self query0 top_k use_llm st = (Raise e, st')
       /\ no_store_request st st' /\ no_chat st st')
  /\ (forall (query_vector : embedding) (response : http_response),
        model_encode w query0 = Answer query_vector ->
        session_request w (http_count st)
          (search_request self query_vector (RAGService.resolve_top_k settings top_k))
        = Answer response ->
        error_status (status_code response) ->
        exists st' : state,
          RAGService.search w settings self query0 top_k use_llm st
          = (Raise (HTTPError (status_code response)), st')
          /\ no_chat st st')
  /\ (forall (query_vector : embedding) (e : exn),
        model_encode w query0 = Answer query_vector ->
        session_request w (http_count st)
          (search_request self query_vector (RAGService.resolve_top_k settings top_k))
        = Failure e ->
        exists st' : state,
          RAGService.search w settings self query0 top_k use_llm st = (Raise e, st')
          /\ no_chat st st').
Proof.
  unfold no_store_request, no_chat. split; [|split].
  - intros e Hembed. unfold RAGService.search.
    run_with (time_run w st). cbv zeta.
    unfold bind at 1, EmbeddingService.embed_text, encode. rewrite Hembed.
    eexists. split; [reflexivity|]. split; reflexivity.
  - intros query_vector response Hembed Hstore Hstatus. unfold RAGService.search.
    run_with (time_run w st). cbv zeta.
    run_with (embed_text_run w (RAGService.embedding_service self) query0
                query_vector (clock_read st) Hembed).
    run_with (time_run w (emit (Encode [query0]) (clock_read st))).
    unfold bind at 1, EndeeClient.search, bind at 1.
    rewrite make_request_run. fold (search_request self query_vector
                                      (RAGService.resolve_top_k settings top_k)).
    cbn [http_count clock_read emit]. rewrite Hstore.
    unfold error_status in Hstatus.
    replace ((400 <=? status_code response) && (status_code response <? 600))
      with true by (symmetry; apply andb_true_iff; lia).
    eexists. split; [reflexivity|]. reflexivity.
  - intros query_vector e Hembed Hstore. unfold RAGService.search.
    run_with (time_run w st). cbv zeta.
    run_with (embed_text_run w (RAGService.embedding_service self) query0
                query_vector (clock_read st) Hembed).
    run_with (time_run w (emit (Encode [query0]) (clock_read st))).
    unfold bind at 1, EndeeClient.search, bind at 1.
    rewrite make_request_run. fold (search_request self query_vector
                                      (RAGService.resolve_top_k settings top_k)).
    cbn [http_count clock_read emit]. rewrite Hstore.
    eexists. split; [reflexivity|]. reflexivity.
Qed.

(** An embedding model that fails, and a store that answers 503. *)
Lemma search_retrieval_failure_witness :
  (exists st' : state,
     RAGService.search Scenarios.model_failing Config.default_settings
       Examples.plain_service "test query" None true initial_state
     = (Raise (OtherException "out of memory"), st')
     /\ no_store_request initial_state st' /\ no_chat initial_state st')
  /\ (exists st' : state,
        RAGService.search (Scenarios.store_answering 503) Config.default_settings
          Examples.plain_service "test query" None true initial_state
        = (Raise (HTTPError 503), st')
        /\ no_chat initial_state st').
Proof.
  split.
  - apply (proj1 (search_retrieval_failure Scenarios.model_failing
                    Config.default_settings Examples.plain_service "test query"
                    None true initial_state)).
    reflexivity.
  - apply (proj1 (proj2 (search_retrieval_failure (Scenarios.store_answering 503)
                    Config.default_settings Examples.plain_service "test query"
                    None true initial_state))
             [1 # 2; 1 # 3] {| status_code := 503; text := ""; body := None |}).
    + reflexivity.
    + reflexivity.
    + unfold error_status. cbn. lia.
Defined.

(** ** Retrieval: the answer of the language model *)

(** The run of _generate_answer on results whose top 3 have text content,
    as a function of what the chat endpoint replies. *)
Lemma generate_answer_run (w : World) (settings : Config.Settings)
    (self : RAGService.service) (query0 : string) (items : list pyval)
    (st : state) (client0 : RAGService.OpenAI) (reply : answer chat_response) :
  RAGService.openai_client self = Some client0 ->
  forallb text_result (firstn 3 items) = true ->
  (forall req : chat_request, chat_completions_create w (chat_count st) req = reply) ->
  exists st' : state,
    RAGService._generate_answer w settings self query0 (PList items) st
    = (match reply with
       | Answer [] => Ok "Error generating answer"
       | Answer (Some text0 :: _) =>
           Ok (if String.eqb text0 "" then "Unable to generate answer" else text0)
       | Answer (None :: _) => Ok "Unable to generate answer"
       | Failure e =>
           if is_Exception e then Ok "Error generating answer" else Raise e
       end, st').
Proof.
  intros Hclient Htext Hchat.
  unfold RAGService._generate_answer. rewrite Hclient.
  unfold bind at 1, lift at 1. cbn [py_slice_prefix].
  unfold bind at 1, lift at 1. cbn [py_iter].
  destruct (context_loop_text w (firstn 3 items) Htext 1 [] st) as (parts & Hparts).
  run_with Hparts.
  unfold try_except, bind at 1, chat. rewrite Hchat.
  destruct reply as [[|[text0|] choices]|e]; cbn [of_answer].
  - eexists. reflexivity.
  - eexists. reflexivity.
  - eexists. reflexivity.
  - unfold except_Exception. destruct (is_Exception e); eexists; reflexivity.
Qed.

(** X15. What search reports of the Answerer when use_llm = true, the
    retrieval succeeded with a non-empty list whose top 3 results have
    text content, and an Answerer is configured: a non-empty text of the
    first choice is returned as generated_answer; an empty or missing text
    gives Unable to generate answer; a completion without choices gives the
    sentinel Error generating answer; and an exception that is not derived
    from Exception (KeyboardInterrupt, SystemExit) is not caught: search
    raises it. *)
Theorem search_answer_of_reply (w : World) (settings : Config.Settings)
    (self : RAGService.service) (query0 : string) (top_k : option Z) (st : state)
    (query_vector : embedding) (answer0 : http_response) (items : list pyval)
    (client0 : RAGService.OpenAI) (reply : answer chat_response) :
  model_encode w query0 = Answer query_vector ->
  session_request w (http_count st)
    (search_request self query_vector (RAGService.resolve_top_k settings top_k))
  = Answer answer0 ->
  accepted answer0 ->
  results_of answer0 = PList items ->
  items <> [] ->
  forallb text_result (firstn 3 items) = true ->
  RAGService.openai_client self = Some client0 ->
  (forall req : chat_request, chat_completions_create w (chat_count st) req = reply) ->
  match reply with
  | Answer [] =>
      exists response st',
        RAGService.search w settings self query0 top_k true st = (Ok response, st')
        /\ RAGService.generated_answer response = Some "Error generating answer"
  | Answer (Some text0 :: _) =>
      exists response st',
        RAGService.search w settings self query0 top_k true st = (Ok response, st')
        /\ RAGService.generated_answer response
           = Some (if String.eqb text0 "" then "Unable to generate answer" else text0)
  | Answer (None :: _) =>
      exists response st',
        RAGService.search w settings self query0 top_k true st = (Ok response, st')
        /\ RAGService.generated_answer response = Some "Unable to generate answer"
  | Failure e =>
      is_Exception e = false ->
      exists st',
        RAGService.search w settings self query0 top_k true st = (Raise e, st')
  end.
Proof.
  intros Hembed Hstore Haccepted Hresults Hitems Htext Hclient Hchat.
  rewrite (search_after_retrieval w settings self query0 top_k true st
             query_vector answer0 Hembed Hstore Haccepted).
  rewrite Hresults, Hclient.
  replace (truthy (PList items)) with true
    by (destruct items; [contradiction | reflexivity]).
  cbn [andb].
  destruct (generate_answer_run w settings self query0 items
              (clock_read
                 (sent (search_request self query_vector
                          (RAGService.resolve_top_k settings top_k))
                    (clock_read (emit (Encode [query0]) (clock_read st)))))
              client0 reply Hclient Htext Hchat) as (st5 & Hgen).
  destruct reply as [[|[text0|] choices]|e].
  - run_with (bind_Ok _ (fun a => ret (Some a)) _ _ _ Hgen).
    eexists. eexists. split; reflexivity.
  - run_with (bind_Ok _ (fun a => ret (Some a)) _ _ _ Hgen).
    eexists. eexists. split; reflexivity.
  - run_with (bind_Ok _ (fun a => ret (Some a)) _ _ _ Hgen).
    eexists. eexists. split; reflexivity.
  - intros He. rewrite He in Hgen.
    rewrite (bind_Raise _ _ _ _ _ (bind_Raise _ (fun a => ret (Some a)) _ _ _ Hgen)).
    eauto.
Qed.

(** An Answerer that replies with a text, and one interrupted from the
    keyboard. *)
Lemma search_answer_of_reply_witness :
  (exists response st',
     RAGService.search (Scenarios.chat_answering (Answer [Some "It is 42."]))
       Examples.settings_with_llm Examples.llm_service "test query" (Some 2) true
       initial_state
     = (Ok response, st')
     /\ RAGService.generated_answer response = Some "It is 42.")
  /\ (exists st',
        RAGService.search (Scenarios.chat_answering (Failure KeyboardInterrupt))
          Examples.settings_with_llm Examples.llm_service "test query" (Some 2) true
          initial_state
        = (Raise KeyboardInterrupt, st')).
Proof.
  assert (Haccepted : accepted Examples.ok_response).
  { split; [left; cbn; lia | right; discriminate]. }
  split.
  - apply (search_answer_of_reply
             (Scenarios.chat_answering (Answer [Some "It is 42."]))
             Examples.settings_with_llm Examples.llm_service "test query" (Some 2)
             initial_state [1 # 2; 1 # 3] Examples.ok_response
             match Examples.sample_results with PList l => l | _ => [] end
             {| RAGService.api_key := "sk-test" |} (Answer [Some "It is 42."])
             eq_refl eq_refl Haccepted eq_refl
             ltac:(discriminate) eq_refl eq_refl (fun _ => eq_refl)).
  - apply (search_answer_of_reply
             (Scenarios.chat_answering (Failure KeyboardInterrupt))
             Examples.settings_with_llm Examples.llm_service "test query" (Some 2)
             initial_state [1 # 2; 1 # 3] Examples.ok_response
             match Examples.sample_results with PList l => l | _ => [] end
             {| RAGService.api_key := "sk-test" |} (Failure KeyboardInterrupt)
             eq_refl eq_refl Haccepted eq_refl
             ltac:(discriminate) eq_refl eq_refl (fun _ => eq_refl) eq_refl).
Defined.

(** X16. The context of the prompt is built outside the handler that
    guards the Answerer: when the first result of the store has a metadata
    that is not an object (null, for instance), a search with use_llm = true
    and an Answerer configured raises AttributeError although the retrieval
    succeeded, while the same search with use_llm = false returns the
    results. *)
Theorem search_malformed_metadata (w : World) (settings : Config.Settings)
    (self : RAGService.service) (query0 : string) (top_k : option Z) (st : state)
    (query_vector : embedding) (answer0 : http_response)
    (kv : dict) (rest : list pyval) (md : pyval) (client0 : RAGService.OpenAI) :
  model_encode w query0 = Answer query_vector ->
  session_request w (http_count st)
    (search_request self query_vector (RAGService.resolve_top_k settings top_k))
  = Answer answer0 ->
  accepted answer0 ->
  results_of answer0 = PList (PDict kv :: rest) ->
  dict_get kv "metadata" (PDict []) = md ->
  (forall d : dict, md <> PDict d) ->
  RAGService.openai_client self = Some client0 ->
  (exists st' : state,
     RAGService.search w settings self query0 top_k true st
     = (Raise (AttributeError "object has no attribute 'get'"), st'))
  /\ (exists (response : RAGService.search_result) (st' : state),
        RAGService.search w settings self query0 top_k false st = (Ok response, st')
        /\ RAGService.results response = PList (PDict kv :: rest)).
Proof.
  intros Hembed Hstore Haccepted Hresults Hmd Hnot Hclient. split.
  - rewrite (search_after_retrieval w settings self query0 top_k true st
               query_vector answer0 Hembed Hstore Haccepted).
    rewrite Hresults, Hclient. cbn [andb truthy].
    unfold bind at 1, bind at 1, RAGService._generate_answer. rewrite Hclient.
    unfold bind at 1, lift at 1. cbn [py_slice_prefix firstn].
    unfold bind at 1, lift at 1. cbn [py_iter].
    unfold bind at 1. cbn [RAGService.context_loop].
    unfold bind at 1, lift at 1. cbn [py_get]. rewrite Hmd.
    unfold bind at 1, lift at 1.
    destruct md as [| | | | | |d]; cbn [py_get]; eauto.
    exfalso. apply (Hnot d). reflexivity.
  - rewrite (search_after_retrieval w settings self query0 top_k false st
               query_vector answer0 Hembed Hstore Haccepted).
    rewrite Hresults. cbn [andb].
    eexists. eexists. split; reflexivity.
Qed.

(** A store whose only result has a null metadata. *)
Lemma search_malformed_metadata_witness :
  (exists st' : state,
     RAGService.search Scenarios.store_with_null_metadata Examples.settings_with_llm
       Examples.llm_service "test query" None true initial_state
     = (Raise (AttributeError "object has no attribute 'get'"), st'))
  /\ (exists (response : RAGService.search_result) (st' : state),
        RAGService.search Scenarios.store_with_null_metadata
          Examples.settings_with_llm Examples.llm_service "test query" None false
          initial_state
        = (Ok response, st')
        /\ RAGService.results response = Scenarios.null_metadata_results).
Proof.
  apply (search_malformed_metadata Scenarios.store_with_null_metadata
           Examples.settings_with_llm Examples.llm_service "test query" None
           initial_state [1 # 2; 1 # 3]
           {| status_code := 200; text := "{...}";
              body := Some [ ("results", Scenarios.null_metadata_results) ] |}
           [ ("id", PStr "a"); ("score", PFloat (9 # 10)); ("metadata", PNone) ]
           [] PNone {| RAGService.api_key := "sk-test" |}).
  - reflexivity.
  - reflexivity.
  - split; [left; cbn; lia | right; discriminate].
  - reflexivity.
  - reflexivity.
  - discriminate.
  - reflexivity.
Defined.

(** ** The size of the prompt *)

Lemma length_append (a b : string) :
  String.length (a ++ b) = (String.length a + String.length b)%nat.
Proof. induction a as [|c a IH]; cbn; [reflexivity | now rewrite IH]. Qed.

Lemma length_str_slice_prefix (s : string) (n : nat) :
  (String.length (str_slice s 0 (Z.of_nat n)) <= n)%nat.
Proof.
  unfold str_slice, slice_bound. pose proof (len_nonneg s) as Hs.
  destruct (Z.ltb_spec 0 0) as [?|_]; [lia|].
  destruct (Z.ltb_spec (Z.of_nat n) 0) as [?|_]; [lia|].
  rewrite (Z.min_l 0) by lia. cbn [Z.to_nat]. rewrite Z.sub_0_r.
  rewrite length_substring; unfold len in *; lia.
Qed.

Lemma context_loop_bounded (w : World) (items : list pyval) :
  forall (i : Z) (context_parts : list string) (st : state),
    1 <= i -> i + Z.of_nat (List.length items) <= 4 ->
    forallb text_result items = true ->
    Forall (fun part => (String.length part <= 317)%nat) context_parts ->
    exists parts : list string,
      RAGService.context_loop w items i context_parts st = (Ok parts, st)
      /\ (List.length parts <= List.length context_parts + List.length items)%nat
      /\ Forall (fun part => (String.length part <= 317)%nat) parts.
Proof.
  induction items as [|result rest IH]; intros i context_parts st Hi Hfew Htext Hacc.
  - exists context_parts. repeat split; [cbn; lia | exact Hacc].
  - cbn [forallb] in Htext. apply andb_true_iff in Htext as [Hresult Hrest].
    cbn [List.length] in Hfew.
    assert (Hskip : exists parts : list string,
              RAGService.context_loop w rest (i + 1) context_parts st = (Ok parts, st)
              /\ (List.length parts
                  <= List.length context_parts + List.length (result :: rest))%nat
              /\ Forall (fun part => (String.length part <= 317)%nat) parts).
    { destruct (IH (i + 1) context_parts st ltac:(lia) ltac:(lia) Hrest Hacc)
        as (parts & Hrun & Hlen & Hall).
      exists parts. repeat split; [exact Hrun | cbn; lia | exact Hall]. }
    cbn [RAGService.context_loop].
    destruct result as [| | | | |l|kv]; try discriminate Hresult.
    cbn [text_result] in Hresult. unfold bind at 1, lift at 1. cbn [py_get].
    destruct (dict_get kv "metadata" (PDict [])) as [| | | | |l|md];
      try discriminate Hresult.
    unfold bind at 1, lift at 1. cbn [py_get].
    destruct (dict_get md "content" (PStr "")) as [|b|z|q|s|l|kv'];
      try (apply negb_true_iff in Hresult; rewrite Hresult; exact Hskip).
    destruct (truthy (PStr s)); [|exact Hskip].
    unfold bind at 1, lift at 1. cbn [py_slice_prefix].
    set (part := "[Document " ++ str_of_Z i ++ "]:" ++ newline
                   ++ str_slice s 0 (Z.of_nat 300) ++ "...").
    destruct (IH (i + 1) (context_parts ++ [part])%list
                st ltac:(lia) ltac:(lia) Hrest) as (parts & Hrun & Hlen & Hall).
    + subst part. apply Forall_app. split; [exact Hacc|]. constructor; [|constructor].
      pose proof (length_str_slice_prefix s 300) as Hpreview.
      assert (Hdigit : String.length (str_of_Z i) = 1%nat).
      { assert (Hcases : i = 1 \/ i = 2 \/ i = 3) by lia.
        destruct Hcases as [-> | [-> | ->]]; reflexivity. }
      rewrite !length_append, Hdigit. cbn [String.length newline]. lia.
    + exists parts. repeat split; [exact Hrun | | exact Hall].
      rewrite length_app in Hlen. cbn in *. lia.
Qed.

(** X17. Only the top 3 results reach the Answerer, and the prompt is
    bounded: _generate_answer runs on a list of results exactly as on its
    first three, and when their content is text the context has at most 3
    parts of at most 317 characters each (a header, at most 300 characters
    of the content, and three dots). *)
Theorem generate_answer_context_bounded (w : World) (settings : Config.Settings)
    (self : RAGService.service) (query0 : string) (items : list pyval) (st : state) :
  forallb text_result (firstn 3 items) = true ->
  RAGService._generate_answer w settings self query0 (PList items) st
  = RAGService._generate_answer w settings self query0 (PList (firstn 3 items)) st
  /\ exists parts : list string,
       RAGService.context_loop w (firstn 3 items) 1 [] st = (Ok parts, st)
       /\ (List.length parts <= 3)%nat
       /\ Forall (fun part => (String.length part <= 317)%nat) parts.
Proof.
  intros Htext. split.
  - unfold RAGService._generate_answer, py_slice_prefix.
    rewrite firstn_firstn. reflexivity.
  - pose proof (firstn_le_length 3 items) as Hfew.
    destruct (context_loop_bounded w (firstn 3 items) 1 [] st
                ltac:(lia) ltac:(lia) Htext ltac:(constructor))
      as (parts & Hrun & Hlen & Hall).
    exists parts. repeat split; [exact Hrun | cbn [List.length] in Hlen; lia | exact Hall].
Qed.

(** The context of the two sample results. *)
Lemma generate_answer_context_bounded_witness :
  exists parts : list string,
    RAGService.context_loop (Examples.world 0)
      (firstn 3 match Examples.sample_results with PList l => l | _ => [] end)
      1 [] initial_state
    = (Ok parts, initial_state)
    /\ (List.length parts <= 3)%nat
    /\ Forall (fun part => (String.length part <= 317)%nat) parts.
Proof.
  apply (proj2 (generate_answer_context_bounded (Examples.world 0)
                  Examples.settings_with_llm Examples.llm_service "test query"
                  match Examples.sample_results with PList l => l | _ => [] end
                  initial_state eq_refl)).
Defined.

(** ** The routes *)



(** X19. The upload route POST /api/v1/ingest-file answers a file that is
    not valid UTF-8 with HTTP 400 without calling the orchestrator, and
    every file that decodes, an empty one included, with HTTP 500: the
    route has no check for an empty content and the orchestrator raises its
    TypeError. *)
Theorem ingest_file_route (w : World) (settings : Config.Settings)
    (decode_utf8 : string -> option string) (fuel : nat)
    (service0 : RAGService.service) (file : Main.UploadFile)
    (source_url : option string) (st : state) (bytes : string) :
  Main.file_read file = Answer bytes ->
  (decode_utf8 bytes = None ->
   Main.ingest_file w settings decode_utf8 fuel (Some service0) file source_url st
   = (Raise (HTTPException 400 "File must be valid UTF-8 text"), st))
  /\ (forall text0 : string,
        decode_utf8 bytes = Some text0 ->
        Main.ingest_file w settings decode_utf8 fuel (Some service0) file source_url st
        = (Raise (HTTPException 500
                    (str_of_exn w
                       (TypeError
                          "chunk_document() got an unexpected keyword argument 'chunk_overlap'"))),
           st)).
Proof.
  intros Hread. unfold Main.ingest_file, try_except, bind, lift.
  rewrite Hread. cbn [of_answer]. split.
  - intros ->. reflexivity.
  - intros text0 ->. cbn [ret]. rewrite ingest_document_raises. reflexivity.
Qed.

(** An upload that is not UTF-8, with a decoder that accepts nothing. *)
Lemma ingest_file_route_witness :
  Main.ingest_file (Examples.world 0) Config.default_settings (fun _ => None) 8
    (Some Examples.plain_service)
    {| Main.filename := Some "notes.txt"; Main.file_read := Answer "bytes" |}
    None initial_state
  = (Raise (HTTPException 400 "File must be valid UTF-8 text"), initial_state).
Proof.
  apply (proj1 (ingest_file_route (Examples.world 0) Config.default_settings
                  (fun _ => None) 8 Examples.plain_service
                  {| Main.filename := Some "notes.txt";
                     Main.file_read := Answer "bytes" |}
                  None initial_state "bytes" eq_refl)).
  reflexivity.
Defined.

(** X20. The route POST /api/v1/search: without a service it answers 503;
    an empty query is answered with 400 before anything is embedded or
    sent to the store; an exception derived from Exception raised by the
    orchestrator becomes HTTP 500 with the text of the exception, any other
    exception passes through; and a response whose results are a list of
    objects is returned as the orchestrator built it. *)
Theorem search_route (w : World) (settings : Config.Settings)
    (service0 : RAGService.service) (request : Main.SearchRequest) (st : state) :
  Main.search w settings None request st
  = (Raise (HTTPException 503 "RAG service not initialized"), st)
  /\ (Main.request_query request = "" ->
      Main.search w settings (Some service0) request st
      = (Raise (HTTPException 400 "query is required"), st))
  /\ (Main.request_query request <> "" ->
      (forall (e : exn) (st' : state),
         RAGService.search w settings service0 (Main.request_query request)
           (Main.request_top_k request) (Main.request_use_llm request) st
         = (Raise e, st') ->
         Main.search w settings (Some service0) request st
         = (Raise (if is_Exception e then HTTPException 500 (str_of_exn w e) else e),
            st'))
      /\ (forall (response : RAGService.search_result) (st' : state),
            RAGService.search w settings service0 (Main.request_query request)
              (Main.request_top_k request) (Main.request_use_llm request) st
            = (Ok response, st') ->
            Main.is_list_of_dict (RAGService.results response) = true ->
            Main.search w settings (Some service0) request st = (Ok response, st'))).
Proof.
  split; [reflexivity|]. split.
  - intros Hq. unfold Main.search. rewrite Hq. reflexivity.
  - intros Hq. unfold Main.search.
    destruct (String.eqb_spec (Main.request_query request) "") as [?|_];
      [contradiction|].
    split.
    + intros e st' Hrun. unfold try_except. rewrite (bind_Raise _ _ _ _ _ Hrun).
      unfold except_Exception. destruct (is_Exception e); reflexivity.
    + intros response st' Hrun Hlist. unfold try_except.
      rewrite (bind_Ok _ _ _ _ _ Hrun). unfold Main.SearchResponse.
      rewrite Hlist. reflexivity.
Qed.

(** An empty query, and a query the store answers. *)
Lemma search_route_witness :
  Main.search (Examples.world 0) Config.default_settings (Some Examples.plain_service)
    {| Main.request_query := ""; Main.request_top_k := None;
       Main.request_use_llm := false |} initial_state
  = (Raise (HTTPException 400 "query is required"), initial_state)
  /\ fst (Main.search (Examples.world 0) Config.default_settings
            (Some Examples.plain_service)
            {| Main.request_query := "test query"; Main.request_top_k := Some 2;
               Main.request_use_llm := false |} initial_state)
     = fst (RAGService.search (Examples.world 0) Config.default_settings
              Examples.plain_service "test query" (Some 2) false initial_state).
Proof.
  split.
  - apply (proj1 (proj2 (search_route (Examples.world 0) Config.default_settings
                    Examples.plain_service
                    {| Main.request_query := ""; Main.request_top_k := None;
                       Main.request_use_llm := false |} initial_state))).
    reflexivity.
  - destruct (RAGService.search (Examples.world 0) Config.default_settings
                Examples.plain_service "test query" (Some 2) false initial_state)
      as [outcome0 st'] eqn:Hrun.
    destruct outcome0 as [response| |]; try (vm_compute in Hrun; discriminate Hrun).
    rewrite (proj2 (proj2 (proj2 (search_route (Examples.world 0)
                Config.default_settings Examples.plain_service
                {| Main.request_query := "test query"; Main.request_top_k := Some 2;
                   Main.request_use_llm := false |} initial_state))
              ltac:(discriminate)) response st' Hrun).
    + reflexivity.
    + vm_compute in Hrun. injection Hrun as <- _. reflexivity.
Defined.

(** X21. The route GET /health answers 503 without a service; with a
    service it never fails: it polls the store once and reports healthy
    when the store answered 200, degraded otherwise (also when the request
    raised), with rag_initialized true. *)
Theorem health_route (w : World) (service0 : RAGService.service) (st : state) :
  Main.health_check w None st
  = (Raise (HTTPException 503 "RAG service not initialized"), st)
  /\ Main.health_check w (Some service0) st
     = (Ok {| Main.status :=
                if healthy_at w (RAGService.endee_client service0) (http_count st)
                then "healthy" else "degraded";
              Main.rag_initialized := true;
              Main.endee_connected :=
                healthy_at w (RAGService.endee_client service0) (http_count st) |},
        sent (EndeeClient.health_request (RAGService.endee_client service0)) st)
  /\ (forall e : exn,
        session_request w (http_count st)
          (EndeeClient.health_request (RAGService.endee_client service0))
        = Failure e ->
        exists response : Main.HealthResponse,
          fst (Main.health_check w (Some service0) st) = Ok response
          /\ Main.status response = "degraded"
          /\ Main.endee_connected response = false).
Proof.
  split; [reflexivity|].
  assert (Hrun : Main.health_check w (Some service0) st
     = (Ok {| Main.status :=
                if healthy_at w (RAGService.endee_client service0) (http_count st)
                then "healthy" else "degraded";
              Main.rag_initialized := true;
              Main.endee_connected :=
                healthy_at w (RAGService.endee_client service0) (http_count st) |},
        sent (EndeeClient.health_request (RAGService.endee_client service0)) st)).
  { unfold Main.health_check.
    run_with (health_check_run w (RAGService.endee_client service0) st).
    reflexivity. }
  split; [exact Hrun|].
  intros e Hfail. rewrite Hrun. cbn [fst]. eexists. split; [reflexivity|].
  unfold healthy_at. rewrite Hfail. split; reflexivity.
Qed.

(** A store that refuses the connection: the route reports degraded. *)
Lemma health_route_witness :
  exists response : Main.HealthResponse,
    fst (Main.health_check (Examples.world 1) (Some Examples.plain_service)
           initial_state) = Ok response
    /\ Main.status response = "degraded"
    /\ Main.endee_connected response = false.
Proof.
  apply (proj2 (proj2 (health_route (Examples.world 1) Examples.plain_service
                         initial_state))
           (RequestException "connection refused")).
  reflexivity.
Defined.

(** ** The statements of ingest_document after the call of the chunker *)

(** X22. The part of ingest_document that follows the chunker (embed,
    zip, insert, report), run on a list of chunks: if the embedding fails
    the exception is raised and nothing is sent to the store; if the store
    refuses the insertion (status 400..599) HTTPError is raised and no
    count is reported; if the store accepts it, exactly one request is
    sent, chunks_added is the number of (chunk, embedding) pairs, that is
    the smaller of the two lengths (chunks without an embedding are dropped
    silently), and total_content_length is the length of the content. *)
Theorem ingest_chunks_behaviour (w : World) (self : RAGService.service)
    (document_name0 content0 : string) (source_url : option string)
    (chunks : list chunk) (st : state) :
  (forall e : exn,
     model_encode_batch w (map EmbeddingService.content chunks) = Failure e ->
     exists st' : state,
       RAGService.ingest_chunks w self document_name0 content0 source_url chunks st
       = (Raise e, st')
       /\ no_store_request st st')
  /\ (forall (embeddings : list embedding) (response : http_response),
        model_encode_batch w (map EmbeddingService.content chunks)
        = Answer embeddings ->
        (forall req : http_request,
           session_request w (http_count st) req = Answer response) ->
        (error_status (status_code response) ->
         fst (RAGService.ingest_chunks w self document_name0 content0 source_url
                chunks st)
         = Raise (HTTPError (status_code response)))
        /\ (accepted response ->
            exists (result : RAGService.ingestion_result) (st' : state),
              RAGService.ingest_chunks w self document_name0 content0 source_url
                chunks st
              = (Ok result, st')
              /\ http_count st' = S (http_count st)
              /\ RAGService.chunks_added result
                 = Z.of_nat (Nat.min (List.length chunks) (List.length embeddings))
              /\ RAGService.total_content_length result = len content0
              /\ RAGService.ingested_document_name result = document_name0)).
Proof.
  split.
  - intros e Henc.
    unfold RAGService.ingest_chunks, EmbeddingService.embed_texts, encode_batch.
    unfold bind at 1. rewrite Henc. eexists. split; reflexivity.
  - intros embeddings response Henc Hans.
    unfold RAGService.ingest_chunks, EmbeddingService.embed_texts, encode_batch.
    split.
    + intros Hstatus.
      unfold bind at 1. rewrite Henc. cbn [of_answer].
      unfold EndeeClient.insert. unfold bind at 1. unfold bind at 1.
      rewrite make_request_run.
      cbn [http_count emit]. rewrite Hans. unfold error_status in Hstatus.
      replace ((400 <=? status_code response) && (status_code response <? 600))
        with true by (symmetry; apply andb_true_iff; lia).
      reflexivity.
    + intros Hacc.
      unfold bind at 1. rewrite Henc. cbn [of_answer].
      unfold EndeeClient.insert. unfold bind at 1. unfold bind at 1.
      match goal with
      | |- context [EndeeClient._make_request w ?c ?m ?e ?d ?s] =>
          destruct (make_request_accepted w c m e d s response (Hans _) Hacc)
            as (d0 & -> & _)
      end.
      cbn [ret]. eexists. eexists. split; [reflexivity|].
      cbn. rewrite length_map, length_combine. auto.
Qed.

(** Three chunks and a model that embeds every text, on an accepting
    store: three chunks are added. *)
Lemma ingest_chunks_behaviour_witness :
  exists (result : RAGService.ingestion_result) (st' : state),
    RAGService.ingest_chunks (Examples.world 0) Examples.plain_service
      "doc" "abcdefghij" None
      match chunk_document 11 (uuid4 (Examples.world 0)) "doc" "abcdefghij" 4 1 with
      | Ok chunks => chunks
      | _ => []
      end
      initial_state
    = (Ok result, st')
    /\ http_count st' = 1%nat
    /\ RAGService.chunks_added result = 3
    /\ RAGService.total_content_length result = 10
    /\ RAGService.ingested_document_name result = "doc".
Proof.
  apply (proj2 (proj2 (ingest_chunks_behaviour (Examples.world 0)
                  Examples.plain_service "doc" "abcdefghij" None
                  match chunk_document 11 (uuid4 (Examples.world 0)) "doc"
                          "abcdefghij" 4 1 with
                  | Ok chunks => chunks
                  | _ => []
                  end
                  initial_state)
                [[1 # 2; 1 # 3]; [1 # 2; 1 # 3]; [1 # 2; 1 # 3]]
                Examples.ok_response eq_refl (fun _ => eq_refl))).
  split; [left; cbn; lia | right; discriminate].
Defined.
